(** * generator.py: a static-site pipeline driven by a text-generation service

    A shallow embedding of [src/generator.py].  Python [str] values are
    modelled by [string] (their UTF-8 bytes); values coming back from the
    remote service or from [json.loads] are dynamically typed and are
    modelled by [pyval].  Effects (network requests, file writes, console
    output) are threaded through an explicit [World]; a Python exception is
    an [outcome] of the form [Raises e].  What the program reads from outside
    (the environment variable, the prompt file, the service's replies, the
    [json], [requests] and [pathlib] libraries) is gathered in an [Env], over
    which every statement about a run is quantified.

    The module-level statements (reading the environment variable, creating
    the output directory) run when the module is loaded, before [main]; the
    model starts at [main]. *)

From Stdlib Require Import String Ascii List ZArith Bool Lia.
Import ListNotations.
Open Scope string_scope.

(** ** Characters the source uses that a literal cannot hold directly *)

Definition LF : string := String (ascii_of_nat 10) EmptyString.
Definition DQ : string := String (ascii_of_nat 34) EmptyString.

(** ** The assembler (generator.py, lines 112-128)

    The f-string is transcribed line by line; [LF] ends each source line and
    [DQ] stands for a double quote of the template. *)

Definition assemble_page (body header footer : string) : string :=
  "<!DOCTYPE html>" ++ LF ++
  "<html lang=" ++ DQ ++ "en" ++ DQ ++ ">" ++ LF ++
  "<head>" ++ LF ++
  "  <meta charset=" ++ DQ ++ "UTF-8" ++ DQ ++ " />" ++ LF ++
  "  <meta name=" ++ DQ ++ "viewport" ++ DQ ++ " content=" ++ DQ ++
       "width=device-width, initial-scale=1.0" ++ DQ ++ "/>" ++ LF ++
  "  <link rel=" ++ DQ ++ "stylesheet" ++ DQ ++ " href=" ++ DQ ++
       "main.css" ++ DQ ++ "/>" ++ LF ++
  "</head>" ++ LF ++
  "<body>" ++ LF ++
  header ++ LF ++
  "<main>" ++ LF ++
  body ++ LF ++
  "</main>" ++ LF ++
  footer ++ LF ++
  "</body>" ++ LF ++
  "</html>" ++ LF.

(** The four fixed stretches of the template, between and around the three
    interpolated blobs. *)

Definition page_prefix : string :=
  Eval vm_compute in
    ("<!DOCTYPE html>" ++ LF ++
     "<html lang=" ++ DQ ++ "en" ++ DQ ++ ">" ++ LF ++
     "<head>" ++ LF ++
     "  <meta charset=" ++ DQ ++ "UTF-8" ++ DQ ++ " />" ++ LF ++
     "  <meta name=" ++ DQ ++ "viewport" ++ DQ ++ " content=" ++ DQ ++
          "width=device-width, initial-scale=1.0" ++ DQ ++ "/>" ++ LF ++
     "  <link rel=" ++ DQ ++ "stylesheet" ++ DQ ++ " href=" ++ DQ ++
          "main.css" ++ DQ ++ "/>" ++ LF ++
     "</head>" ++ LF ++
     "<body>" ++ LF).
Definition main_open : string := Eval vm_compute in (LF ++ "<main>" ++ LF).
Definition main_close : string := Eval vm_compute in (LF ++ "</main>" ++ LF).
Definition page_suffix : string :=
  Eval vm_compute in (LF ++ "</body>" ++ LF ++ "</html>" ++ LF).

(** ** Dynamically typed values

    What [response.json()] and [json.loads] hand back: [None], booleans,
    integers, floats (kept as their printed form, never computed with),
    strings, lists and dictionaries with string keys.  [call_ai] returns such
    a value unchanged, so every consumer below is written against [pyval]. *)

#[warning="-register-all"]
Inductive pyval : Type :=
| PyNone
| PyBool (b : bool)
| PyInt (z : Z)
| PyFloat (printed : string)
| PyStr (s : string)
| PyList (items : list pyval)
| PyDict (entries : list (string * pyval)).

(** A subscript is a string key ([x["choices"]]) or an integer ([x[0]]). *)
Inductive pykey : Type :=
| KStr (k : string)
| KInt (i : Z).

(** ** Exceptions and outcomes *)

Inductive exn : Type :=
| RuntimeError (msg : string)      (* raised by main, line 135 *)
| RequestException                 (* requests.post could not complete *)
| HTTPError (status : Z)           (* response.raise_for_status() *)
| ResponseJSONDecodeError          (* response.json() on a non-JSON body *)
| JSONDecodeError                  (* json.loads on a non-JSON text *)
| ValueError                       (* json.loads, e.g. on an oversized integer *)
| RecursionError                   (* json.loads on a text nested too deeply *)
| KeyError (k : pykey)
| IndexError
| TypeError
| OSError.

Inductive outcome (A : Type) : Type :=
| Returns (a : A)
| Raises (e : exn).
Arguments Returns {A} a.
Arguments Raises {A} e.

(** ** Python built-ins the source relies on *)

(** Truthiness of [os.getenv(...)]: [None] and the empty string are falsy. *)
Definition truthy (v : option string) : bool :=
  match v with
  | None => false
  | Some EmptyString => false
  | Some (String _ _) => true
  end.

(** [f"{v}"] for the value of [os.getenv]. *)
Definition format_env (v : option string) : string :=
  match v with
  | None => "None"
  | Some s => s
  end.

(** A UTF-8 continuation byte, 0b10xxxxxx. *)
Definition is_continuation (c : ascii) : bool :=
  let n := nat_of_ascii c in (128 <=? n)%nat && (n <? 192)%nat.

(** The characters (code points) of a [str], each as a one-character [str]:
    a byte that is not a continuation byte starts a new character. *)
Fixpoint py_chars (s : string) : list string :=
  match s with
  | EmptyString => []
  | String c s' =>
      match s' with
      | EmptyString => [String c EmptyString]
      | String c' _ =>
          if is_continuation c'
          then match py_chars s' with
               | x :: xs => String c x :: xs
               | [] => [String c EmptyString]
               end
          else String c EmptyString :: py_chars s'
      end
  end.

Fixpoint dict_get (entries : list (string * pyval)) (k : string) : option pyval :=
  match entries with
  | [] => None
  | (k', v) :: rest => if (k' =? k)%string then Some v else dict_get rest k
  end.

(** Sequence indexing with Python's negative indices. *)
Definition seq_index {A : Type} (xs : list A) (i : Z) : outcome A :=
  let n := Z.of_nat (List.length xs) in
  let j := if (i <? 0)%Z then (n + i)%Z else i in
  if (j <? 0)%Z then Raises IndexError
  else match nth_error xs (Z.to_nat j) with
       | Some x => Returns x
       | None => Raises IndexError
       end.

(** [v[k]].  Dictionaries decoded from JSON have string keys only, so an
    integer subscript of a dictionary is always a [KeyError]. *)
Definition py_getitem (v : pyval) (k : pykey) : outcome pyval :=
  match v, k with
  | PyDict entries, KStr key =>
      match dict_get entries key with
      | Some x => Returns x
      | None => Raises (KeyError k)
      end
  | PyDict _, KInt _ => Raises (KeyError k)
  | PyList items, KInt i => seq_index items i
  | PyList _, KStr _ => Raises TypeError
  | PyStr s, KInt i =>
      match seq_index (py_chars s) i with
      | Returns c => Returns (PyStr c)
      | Raises e => Raises e
      end
  | PyStr _, KStr _ => Raises TypeError
  | _, _ => Raises TypeError
  end.

(** What [for x in v] iterates over. *)
Definition py_iter (v : pyval) : outcome (list pyval) :=
  match v with
  | PyList items => Returns items
  | PyStr s => Returns (map PyStr (py_chars s))
  | PyDict entries => Returns (map (fun kv => PyStr (fst kv)) entries)
  | _ => Raises TypeError
  end.

(** ** Requests and responses (the [requests] library) *)

Record Request : Type := mkRequest {
  url : string;
  authorization : string;
  content_type : string;
  model : string;
  messages : list (string * string);   (* (role, content), in order *)
  temperature : Z * Z;                 (* numerator, denominator *)
  timeout : Z
}.

(** A response as the client sees it: its status and what [.json()] gives
    ([None] when the body is not JSON). *)
Record Response : Type := mkResponse {
  status_code : Z;
  json : option pyval
}.

Definition raise_for_status (r : Response) : outcome unit :=
  if ((400 <=? status_code r) && (status_code r <? 600))%Z
  then Raises (HTTPError (status_code r))
  else Returns tt.

Definition response_json (r : Response) : outcome pyval :=
  match json r with
  | Some v => Returns v
  | None => Raises ResponseJSONDecodeError
  end.

(** ** The world a run acts on, and the environment it runs in *)

Record World : Type := mkWorld {
  net_log : list Request;              (* requests sent, oldest first *)
  writes : list (string * string);     (* completed writes (file, text), oldest first *)
  stdout : list string                 (* lines printed, oldest first *)
}.

(** Everything the program reads but does not define: the environment
    variable, the prompt file, the remote service, the [json] and [pathlib]
    libraries and the file system's willingness to accept a write.
    - [requests_post log req] is the reply to [req] when [log] holds the
      requests sent before it; [None] means that [requests.post] raised.
    - [json_loads s] is [json.loads(s)] on a text [s]: the decoded value,
      or the exception the decoder raises.
    - [py_repr v] is [str(v)] for a [v] that is not a [str].
    - [path_div d name] names the file that [d / name] designates.
    - [write_fails done file text] tells whether writing [text] to [file]
      raises [OSError] after the writes [done]. *)
Record Env : Type := mkEnv {
  OPENROUTER_API_KEY : option string;
  read_prompt : outcome string;
  requests_post : list Request -> Request -> option Response;
  json_loads : string -> outcome pyval;
  py_repr : pyval -> string;
  path_div : string -> string -> string;
  write_fails : list (string * string) -> string -> string -> bool
}.

Definition MODEL : string := "deepseek/deepseek-r1".
Definition OUTPUT_DIR : string := "output".

(** [str(v)], which is also what an f-string writes for [{v}]. *)
Definition py_str (E : Env) (v : pyval) : string :=
  match v with
  | PyStr s => s
  | _ => py_repr E v
  end.

(** ** The effect monad: state passing with exceptions *)

Definition M (A : Type) : Type := World -> outcome A * World.

Definition ret {A : Type} (a : A) : M A := fun w => (Returns a, w).

Definition raise {A : Type} (e : exn) : M A := fun w => (Raises e, w).

Definition bind {A B : Type} (m : M A) (k : A -> M B) : M B :=
  fun w =>
    match m w with
    | (Returns a, w') => k a w'
    | (Raises e, w') => (Raises e, w')
    end.

Definition lift {A : Type} (o : outcome A) : M A := fun w => (o, w).

Notation "x <- m ;; k" := (bind m (fun x => k))
  (at level 61, m at next level, right associativity).
Notation "m ;;; k" := (bind m (fun _ => k))
  (at level 61, right associativity).

Fixpoint for_each {A : Type} (xs : list A) (body : A -> M unit) : M unit :=
  match xs with
  | [] => ret tt
  | x :: rest => body x ;;; for_each rest body
  end.

(** The three ways a run changes the world. *)
Definition sent (req : Request) (w : World) : World :=
  mkWorld (net_log w ++ [req]) (writes w) (stdout w).
Definition written (file text : string) (w : World) : World :=
  mkWorld (net_log w) (writes w ++ [(file, text)]) (stdout w).
Definition printed (line : string) (w : World) : World :=
  mkWorld (net_log w) (writes w) (stdout w ++ [line]).

(** [print(line)]: the console is taken to accept every line. *)
Definition print (line : string) : M unit :=
  fun w => (Returns tt, printed line w).

(** [requests.post(...)]: the request is on the wire whether or not a reply
    comes back. *)
Definition post (E : Env) (req : Request) : M Response :=
  fun w =>
    match requests_post E (net_log w) req with
    | Some r => (Returns r, sent req w)
    | None => (Raises RequestException, sent req w)
    end.

(** [Path.write_text(data)]: the type of [data] is checked before the file
    is opened.  A write that raises is taken to leave the files as they
    were. *)
Definition write_text (E : Env) (file : string) (data : pyval) : M unit :=
  fun w =>
    match data with
    | PyStr text =>
        if write_fails E (writes w) file text
        then (Raises OSError, w)
        else (Returns tt, written file text w)
    | _ => (Raises TypeError, w)
    end.

(** [OUTPUT_DIR / page]: only a [str] can be joined to a path. *)
Definition py_truediv (E : Env) (dir : string) (name : pyval) : outcome string :=
  match name with
  | PyStr s => Returns (path_div E dir s)
  | _ => Raises TypeError
  end.

(** [json.loads(v)]: anything but text is a [TypeError]. *)
Definition py_json_loads (E : Env) (v : pyval) : outcome pyval :=
  match v with
  | PyStr s => json_loads E s
  | _ => Raises TypeError
  end.

(** The text of the file a path holds after a sequence of writes. *)
Fixpoint file_content (ws : list (string * string)) (file : string) : option string :=
  match ws with
  | [] => None
  | (f, text) :: rest =>
      match file_content rest file with
      | Some later => Some later
      | None => if (f =? file)%string then Some text else None
      end
  end.

(** ** AI call (generator.py, lines 17-35) *)

(** The arguments of [requests.post] in [call_ai]. *)
Definition chat_request (E : Env) (system_prompt user_prompt : string) : Request :=
  {| url := "https://openrouter.ai/api/v1/chat/completions";
     authorization := "Bearer " ++ format_env (OPENROUTER_API_KEY E);
     content_type := "application/json";
     model := MODEL;
     messages := [("system", system_prompt); ("user", user_prompt)];
     temperature := (3, 10)%Z;
     timeout := 120 |}.

Definition call_ai (E : Env) (system_prompt user_prompt : string) : M pyval :=
  response <- post E (chat_request E system_prompt user_prompt) ;;
  lift (raise_for_status response) ;;;
  reply <- lift (response_json response) ;;
  choices <- lift (py_getitem reply (KStr "choices")) ;;
  choice <- lift (py_getitem choices (KInt 0)) ;;
  message <- lift (py_getitem choice (KStr "message")) ;;
  lift (py_getitem message (KStr "content")).

(** ** Step 1: site structure (lines 40-56) *)

Definition structure_system : string := "You are a senior website architect.".

Definition structure_user (prompt : string) : string :=
  LF ++
  "Generate a JSON website structure." ++ LF ++
  LF ++
  "Rules:" ++ LF ++
  "- Header and footer must be global" ++ LF ++
  "- Pages must be independent" ++ LF ++
  "- Include pricing, login, signup, legal pages" ++ LF ++
  LF ++
  "Return ONLY valid JSON." ++ LF ++
  LF ++
  "Prompt:" ++ LF ++
  prompt ++ LF.

Definition generate_structure (E : Env) (prompt : string) : M pyval :=
  result <- call_ai E structure_system (structure_user prompt) ;;
  lift (py_json_loads E result).

(** ** Step 2: global components (lines 61-71) *)

Definition header_system : string := "You create reusable website headers.".
Definition header_user (prompt : string) : string :=
  "Create a clean global HTML header for this site:" ++ LF ++ prompt.

Definition generate_header (E : Env) (prompt : string) : M pyval :=
  call_ai E header_system (header_user prompt).

Definition footer_system : string := "You create reusable website footers.".
Definition footer_user (prompt : string) : string :=
  "Create a clean global HTML footer with disclaimer:" ++ LF ++ prompt.

Definition generate_footer (E : Env) (prompt : string) : M pyval :=
  call_ai E footer_system (footer_user prompt).

(** ** Step 3: page generator (lines 76-91) *)

Definition page_system : string := "You generate complete HTML pages.".
Definition page_user (E : Env) (page_name : pyval) (prompt : string) : string :=
  LF ++
  "Create a FULL HTML page for '" ++ py_str E page_name ++ "'." ++ LF ++
  LF ++
  "Rules:" ++ LF ++
  "- Do NOT include header or footer" ++ LF ++
  "- Content only inside <main>" ++ LF ++
  "- SEO friendly" ++ LF ++
  "- Professional UI" ++ LF ++
  LF ++
  "Website prompt:" ++ LF ++
  prompt ++ LF.

Definition generate_page (E : Env) (page_name : pyval) (prompt : string) : M pyval :=
  call_ai E page_system (page_user E page_name prompt).

(** ** Step 4: CSS (lines 96-107) *)

Definition css_system : string := "You generate production-ready CSS.".
Definition css_user (prompt : string) : string :=
  LF ++
  "Create a modern fintech CSS stylesheet." ++ LF ++
  "Dark & light friendly." ++ LF ++
  "Mobile responsive." ++ LF ++
  LF ++
  "Website prompt:" ++ LF ++
  prompt ++ LF.

Definition generate_css (E : Env) (prompt : string) : M pyval :=
  call_ai E css_system (css_user prompt).

(** ** The assembler as [main] calls it

    The arguments are whatever the generation calls returned; the f-string
    writes [str(v)] for each of them.  The call touches neither the network
    nor the disk and raises nothing. *)
Definition assemble_page_call (E : Env) (body header footer : pyval) : M string :=
  ret (assemble_page (py_str E body) (py_str E header) (py_str E footer)).

(** ** Main (lines 133-160) *)

(** One turn of the [for page in structure["pages"]] loop. *)
Definition page_step (E : Env) (prompt : string) (header footer page : pyval) : M unit :=
  body <- generate_page E page prompt ;;
  full_html <- assemble_page_call E body header footer ;;
  file <- lift (py_truediv E OUTPUT_DIR page) ;;
  write_text E file (PyStr full_html) ;;;
  print ("   ✔ " ++ py_str E page).

Definition main (E : Env) : M unit :=
  if negb (truthy (OPENROUTER_API_KEY E))
  then raise (RuntimeError "OPENROUTER_API_KEY not set")
  else
    prompt <- lift (read_prompt E) ;;
    print "🔹 Generating site structure..." ;;;
    structure <- generate_structure E prompt ;;
    print "🔹 Generating header & footer..." ;;;
    header <- generate_header E prompt ;;
    footer <- generate_footer E prompt ;;
    write_text E (path_div E OUTPUT_DIR "header.html") header ;;;
    write_text E (path_div E OUTPUT_DIR "footer.html") footer ;;;
    print "🔹 Generating CSS..." ;;;
    css <- generate_css E prompt ;;
    write_text E (path_div E OUTPUT_DIR "main.css") css ;;;
    print "🔹 Generating pages..." ;;;
    pages <- lift (py_getitem structure (KStr "pages")) ;;
    items <- lift (py_iter pages) ;;
    for_each items (page_step E prompt header footer) ;;;
    print "✅ Site generation complete.".

(** A fresh process: nothing sent, written or printed yet. *)
Definition fresh : World := mkWorld [] [] [].

(** The requests of a run, by stage. *)
Definition structure_request (E : Env) (prompt : string) : Request :=
  chat_request E structure_system (structure_user prompt).
Definition header_request (E : Env) (prompt : string) : Request :=
  chat_request E header_system (header_user prompt).
Definition footer_request (E : Env) (prompt : string) : Request :=
  chat_request E footer_system (footer_user prompt).
Definition css_request (E : Env) (prompt : string) : Request :=
  chat_request E css_system (css_user prompt).
Definition page_request (E : Env) (prompt : string) (page : pyval) : Request :=
  chat_request E page_system (page_user E page prompt).

(** What [call_ai] makes of the reply to [req] after the requests [log]:
    the part of [call_ai] that runs once [requests.post] is over. *)
Definition reply_outcome (E : Env) (log : list Request) (req : Request) : outcome pyval :=
  match requests_post E log req with
  | None => Raises RequestException
  | Some response =>
      match raise_for_status response with
      | Raises e => Raises e
      | Returns _ =>
          match response_json response with
          | Raises e => Raises e
          | Returns reply =>
              match py_getitem reply (KStr "choices") with
              | Raises e => Raises e
              | Returns choices =>
                  match py_getitem choices (KInt 0) with
                  | Raises e => Raises e
                  | Returns choice =>
                      match py_getitem choice (KStr "message") with
                      | Raises e => Raises e
                      | Returns message => py_getitem message (KStr "content")
                      end
                  end
              end
          end
      end
  end.

(** ** Vocabulary of the statements *)

(** Number of positions of [s] at which [pat] starts. *)
Fixpoint occurrences (pat s : string) : nat :=
  (if prefix pat s then 1 else 0) +
  match s with
  | EmptyString => 0
  | String _ rest => occurrences pat rest
  end.

(** [s] holds the [parts] one after the other, without overlap, possibly
    with other text before, between and after them. *)
Fixpoint contains_in_order (parts : list string) (s : string) : Prop :=
  match parts with
  | [] => True
  | p :: rest =>
      exists before after, s = before ++ p ++ after /\ contains_in_order rest after
  end.

(** The elements of the document head, as the template spells them. *)
Definition doctype : string := "<!DOCTYPE html>".
Definition meta_charset : string :=
  "<meta charset=" ++ DQ ++ "UTF-8" ++ DQ ++ " />".
Definition meta_viewport : string :=
  "<meta name=" ++ DQ ++ "viewport" ++ DQ ++ " content=" ++ DQ ++
  "width=device-width, initial-scale=1.0" ++ DQ ++ "/>".
Definition stylesheet_link : string :=
  "<link rel=" ++ DQ ++ "stylesheet" ++ DQ ++ " href=" ++ DQ ++ "main.css" ++ DQ ++ "/>".

(** The content field of a decoded reply,
    [reply["choices"][0]["message"]["content"]], when the reply has the
    shape of a chat completion. *)
Definition content_field (reply : pyval) : option pyval :=
  match reply with
  | PyDict top =>
      match dict_get top "choices" with
      | Some (PyList (PyDict choice :: _)) =>
          match dict_get choice "message" with
          | Some (PyDict message) => dict_get message "content"
          | _ => None
          end
      | _ => None
      end
  | _ => None
  end.

(** The exceptions a failed subscript raises. *)
Definition is_lookup_error (e : exn) : bool :=
  match e with
  | KeyError _ | IndexError | TypeError => true
  | _ => false
  end.

(** The stages of [main] that come before the page loop all succeed, from
    the world [w]: the credential is set, the prompt file is read, the
    structure call returns a text that decodes to [structure], the header,
    footer and CSS calls return the texts [header], [footer] and [css], and
    the three writes are accepted. *)
Definition setup_succeeds (E : Env) (w : World) (prompt : string)
    (structure : pyval) (header footer css : string) : Prop :=
  truthy (OPENROUTER_API_KEY E) = true /\
  read_prompt E = Returns prompt /\
  (exists text,
      reply_outcome E (net_log w) (structure_request E prompt) = Returns (PyStr text) /\
      json_loads E text = Returns structure) /\
  reply_outcome E (net_log w ++ [structure_request E prompt])
    (header_request E prompt) = Returns (PyStr header) /\
  reply_outcome E (net_log w ++ [structure_request E prompt; header_request E prompt])
    (footer_request E prompt) = Returns (PyStr footer) /\
  write_fails E (writes w) (path_div E OUTPUT_DIR "header.html") header = false /\
  write_fails E (writes w ++ [(path_div E OUTPUT_DIR "header.html", header)])
    (path_div E OUTPUT_DIR "footer.html") footer = false /\
  reply_outcome E
    (net_log w ++ [structure_request E prompt; header_request E prompt;
                   footer_request E prompt])
    (css_request E prompt) = Returns (PyStr css) /\
  write_fails E
    (writes w ++ [(path_div E OUTPUT_DIR "header.html", header);
                  (path_div E OUTPUT_DIR "footer.html", footer)])
    (path_div E OUTPUT_DIR "main.css") css = false.

(** The requests and the writes of those stages, in order. *)
Definition setup_requests (E : Env) (prompt : string) : list Request :=
  [structure_request E prompt; header_request E prompt;
   footer_request E prompt; css_request E prompt].

Definition shared_files (E : Env) (header footer css : string) : list (string * string) :=
  [(path_div E OUTPUT_DIR "header.html", header);
   (path_div E OUTPUT_DIR "footer.html", footer);
   (path_div E OUTPUT_DIR "main.css", css)].

(** The world once those stages are over. *)
Definition after_setup (E : Env) (prompt header footer css : string) (w : World) : World :=
  mkWorld (net_log w ++ setup_requests E prompt)
          (writes w ++ shared_files E header footer css)
          (stdout w ++ ["🔹 Generating site structure...";
                        "🔹 Generating header & footer...";
                        "🔹 Generating CSS...";
                        "🔹 Generating pages..."]).

(** What is left of [main] at that point: the page loop and the last line. *)
Definition page_stage (E : Env) (prompt : string) (structure header footer : pyval) : M unit :=
  pages <- lift (py_getitem structure (KStr "pages")) ;;
  items <- lift (py_iter pages) ;;
  for_each items (page_step E prompt header footer) ;;;
  print "✅ Site generation complete.".

(** ** Stub environments

    Test doubles for the examples below: the service answers its n-th
    request with the n-th response of a script and is unreachable once the
    script is over; [json.loads] is tabulated on the texts it is given; a
    relative name is joined to a directory with a slash; no write fails. *)

Definition chat_reply (text : string) : Response :=
  mkResponse 200
    (Some (PyDict
       [("choices",
         PyList [PyDict [("message",
                          PyDict [("role", PyStr "assistant");
                                  ("content", PyStr text)])]])])).

Fixpoint table_get (table : list (string * pyval)) (text : string) : option pyval :=
  match table with
  | [] => None
  | (t, v) :: rest => if (t =? text)%string then Some v else table_get rest text
  end.

(** A tabulated [json.loads]: a text outside the table is not JSON. *)
Definition table_loads (table : list (string * pyval)) (text : string) : outcome pyval :=
  match table_get table text with
  | Some v => Returns v
  | None => Raises JSONDecodeError
  end.

(** [str(v)] for the scalars that are not text. *)
Definition stub_repr (v : pyval) : string :=
  match v with
  | PyNone => "None"
  | PyBool true => "True"
  | PyBool false => "False"
  | PyFloat printed => printed
  | _ => "..."
  end.

Definition stub_env (key : option string) (prompt : string)
    (script : list Response) (decoded : list (string * pyval)) : Env :=
  {| OPENROUTER_API_KEY := key;
     read_prompt := Returns prompt;
     requests_post := fun log _ => nth_error script (List.length log);
     json_loads := table_loads decoded;
     py_repr := stub_repr;
     path_div := fun dir name => dir ++ "/" ++ name;
     write_fails := fun _ _ _ => false |}.

Definition demo_prompt : string := "A fintech landing site".

(** [{"pages": []}] *)
Definition no_pages_text : string := "{" ++ DQ ++ "pages" ++ DQ ++ ": []}".

(** [{"pages": ["index.html", "pricing.html", "index.html"]}] *)
Definition repeated_pages_text : string :=
  "{" ++ DQ ++ "pages" ++ DQ ++ ": [" ++
  DQ ++ "index.html" ++ DQ ++ ", " ++ DQ ++ "pricing.html" ++ DQ ++ ", " ++
  DQ ++ "index.html" ++ DQ ++ "]}".

(** The service is unreachable. *)
Definition env_offline : Env := stub_env (Some "sk-test") demo_prompt [] [].

(** No credential in the environment. *)
Definition env_no_key : Env :=
  stub_env None demo_prompt [chat_reply no_pages_text]
    [(no_pages_text, PyDict [("pages", PyList [])])].

(** The structure call answers with prose instead of JSON. *)
Definition env_prose : Env :=
  stub_env (Some "sk-test") demo_prompt
    [chat_reply "Sure! Here is the structure of your site."] [].

(** The structure call answers [{}]: valid JSON without a [pages] field. *)
Definition env_no_field : Env :=
  stub_env (Some "sk-test") demo_prompt
    [chat_reply "{}"; chat_reply "<h1>H</h1>"; chat_reply "<p>F</p>";
     chat_reply "body {}"]
    [("{}", PyDict [])].

(** The structure call answers with an empty page list. *)
Definition env_no_pages : Env :=
  stub_env (Some "sk-test") demo_prompt
    [chat_reply no_pages_text; chat_reply "<h1>H</h1>"; chat_reply "<p>F</p>";
     chat_reply "body {}"]
    [(no_pages_text, PyDict [("pages", PyList [])])].

(** The page list names [index.html] twice; the service writes a different
    body each time. *)
Definition env_repeated : Env :=
  stub_env (Some "sk-test") demo_prompt
    [chat_reply repeated_pages_text; chat_reply "<h1>H</h1>";
     chat_reply "<p>F</p>"; chat_reply "body {}";
     chat_reply "<h1>Index, first draft</h1>"; chat_reply "<h1>Pricing</h1>";
     chat_reply "<h1>Index, second draft</h1>"]
    [(repeated_pages_text,
      PyDict [("pages", PyList [PyStr "index.html"; PyStr "pricing.html";
                                PyStr "index.html"])])].

(** [{"pages": ["index.html", "pricing.html"]}] *)
Definition two_pages_text : string :=
  "{" ++ DQ ++ "pages" ++ DQ ++ ": [" ++
  DQ ++ "index.html" ++ DQ ++ "," ++ DQ ++ "pricing.html" ++ DQ ++ "]}".

(** The end-to-end scenario of the specification, section 8. *)
Definition env_scenario : Env :=
  stub_env (Some "sk-test") demo_prompt
    [chat_reply two_pages_text; chat_reply "<h1>H</h1>"; chat_reply "<p>F</p>";
     chat_reply "body {}"; chat_reply "<h1>Index</h1>";
     chat_reply "<h1>Pricing</h1>"]
    [(two_pages_text,
      PyDict [("pages", PyList [PyStr "index.html"; PyStr "pricing.html"])])].

(** ** Further vocabulary *)

Definition is_text (v : pyval) : bool :=
  match v with
  | PyStr _ => true
  | _ => false
  end.

(** A status that [raise_for_status] rejects: 400 to 599. *)
Definition is_error_status (status : Z) : bool :=
  ((400 <=? status) && (status <? 600))%Z.

(** The run gets as far as a decoded structure: the credential is set, the
    prompt file is read and the structure call returns a text that decodes
    to [structure]. *)
Definition structure_obtained (E : Env) (w : World) (prompt : string)
    (structure : pyval) : Prop :=
  truthy (OPENROUTER_API_KEY E) = true /\
  read_prompt E = Returns prompt /\
  exists text,
    reply_outcome E (net_log w) (structure_request E prompt) = Returns (PyStr text) /\
    json_loads E text = Returns structure.

(** What is left of [main] once the structure is there (lines 142-160). *)
Definition component_stage (E : Env) (prompt : string) (structure : pyval) : M unit :=
  print "🔹 Generating header & footer..." ;;;
  header <- generate_header E prompt ;;
  footer <- generate_footer E prompt ;;
  write_text E (path_div E OUTPUT_DIR "header.html") header ;;;
  write_text E (path_div E OUTPUT_DIR "footer.html") footer ;;;
  print "🔹 Generating CSS..." ;;;
  css <- generate_css E prompt ;;
  write_text E (path_div E OUTPUT_DIR "main.css") css ;;;
  print "🔹 Generating pages..." ;;;
  page_stage E prompt structure header footer.

(** A reply whose content field holds an arbitrary value. *)
Definition chat_reply_of (content : pyval) : Response :=
  mkResponse 200
    (Some (PyDict
       [("choices",
         PyList [PyDict [("message",
                          PyDict [("role", PyStr "assistant");
                                  ("content", content)])]])])).

(** A reply with status 200 and the given decoded body. *)
Definition plain_reply (body : pyval) : Response := mkResponse 200 (Some body).

(** ** More stub environments *)

(** The credential is set, but empty. *)
Definition env_empty_key : Env :=
  stub_env (Some "") demo_prompt [chat_reply no_pages_text]
    [(no_pages_text, PyDict [("pages", PyList [])])].

(** The prompt file cannot be read. *)
Definition env_no_prompt : Env :=
  {| OPENROUTER_API_KEY := Some "sk-test";
     read_prompt := Raises OSError;
     requests_post := fun log _ => nth_error [chat_reply no_pages_text] (List.length log);
     json_loads := table_loads [(no_pages_text, PyDict [("pages", PyList [])])];
     py_repr := stub_repr;
     path_div := fun dir name => dir ++ "/" ++ name;
     write_fails := fun _ _ _ => false |}.

(** The service answers with status 200 and an error report. *)
Definition env_error_body : Env :=
  stub_env (Some "sk-test") demo_prompt
    [plain_reply (PyDict [("error", PyDict [("message", PyStr "No credits")])])] [].

(** The service answers with an empty list of choices. *)
Definition env_no_choice : Env :=
  stub_env (Some "sk-test") demo_prompt
    [plain_reply (PyDict [("choices", PyList [])])] [].

(** The structure call answers with a null content. *)
Definition env_null_structure : Env :=
  stub_env (Some "sk-test") demo_prompt [chat_reply_of PyNone] [].

Definition two_pages : pyval :=
  PyDict [("pages", PyList [PyStr "index.html"; PyStr "pricing.html"])].

(** The service goes down after the header call. *)
Definition env_footer_down : Env :=
  stub_env (Some "sk-test") demo_prompt
    [chat_reply two_pages_text; chat_reply "<h1>H</h1>"]
    [(two_pages_text, two_pages)].

(** The header call answers with a null content. *)
Definition env_null_header : Env :=
  stub_env (Some "sk-test") demo_prompt
    [chat_reply two_pages_text; chat_reply_of PyNone; chat_reply "<p>F</p>"]
    [(two_pages_text, two_pages)].

(** The service goes down after the footer call. *)
Definition env_css_down : Env :=
  stub_env (Some "sk-test") demo_prompt
    [chat_reply two_pages_text; chat_reply "<h1>H</h1>"; chat_reply "<p>F</p>"]
    [(two_pages_text, two_pages)].

(** [["index.html"]]: the structure is a bare list of names. *)
Definition array_text : string := "[" ++ DQ ++ "index.html" ++ DQ ++ "]".
Definition env_array : Env :=
  stub_env (Some "sk-test") demo_prompt
    [chat_reply array_text; chat_reply "<h1>H</h1>"; chat_reply "<p>F</p>";
     chat_reply "body {}"]
    [(array_text, PyList [PyStr "index.html"])].

(** [{"pages": "ab"}]: the page list is a text, not a list. *)
Definition text_pages_text : string :=
  "{" ++ DQ ++ "pages" ++ DQ ++ ": " ++ DQ ++ "ab" ++ DQ ++ "}".
Definition env_text_pages : Env :=
  stub_env (Some "sk-test") demo_prompt
    [chat_reply text_pages_text; chat_reply "<h1>H</h1>"; chat_reply "<p>F</p>";
     chat_reply "body {}"; chat_reply "<h1>A</h1>"; chat_reply "<h1>B</h1>"]
    [(text_pages_text, PyDict [("pages", PyStr "ab")])].

(** [{"pages": null}] *)
Definition null_pages_text : string := "{" ++ DQ ++ "pages" ++ DQ ++ ": null}".
Definition env_null_pages : Env :=
  stub_env (Some "sk-test") demo_prompt
    [chat_reply null_pages_text; chat_reply "<h1>H</h1>"; chat_reply "<p>F</p>";
     chat_reply "body {}"]
    [(null_pages_text, PyDict [("pages", PyNone)])].

(** The service answers one request. *)
Definition env_one_reply : Env :=
  stub_env (Some "sk-test") demo_prompt [chat_reply "<h1>Index</h1>"] [].

(** The scenario of section 8 with a service that goes down before the
    second page. *)
Definition env_page_down : Env :=
  stub_env (Some "sk-test") demo_prompt
    [chat_reply two_pages_text; chat_reply "<h1>H</h1>"; chat_reply "<p>F</p>";
     chat_reply "body {}"; chat_reply "<h1>Index</h1>"]
    [(two_pages_text, two_pages)].

(** ** Invariants of a run *)

(** [m] ends in a world related by [S] to the one it started in when it
    returns, and by [R] when it raises. *)
Definition ensures {A : Type} (m : M A) (R S : World -> World -> Prop) : Prop :=
  forall w,
    match m w with
    | (Returns _, w') => S w w'
    | (Raises _, w') => R w w'
    end.

(** From [w] to [w'], requests, writes and lines have only been added; the
    requests added are chat requests as [call_ai] builds them and the files
    added are designated through the output directory. *)
Definition grows_by_run (E : Env) (w w' : World) : Prop :=
  exists reqs files lines,
    net_log w' = (net_log w ++ reqs)%list /\
    writes w' = (writes w ++ files)%list /\
    stdout w' = (stdout w ++ lines)%list /\
    Forall (fun r => exists system_prompt user_prompt,
                       r = chat_request E system_prompt user_prompt) reqs /\
    Forall (fun fw => exists name, fst fw = path_div E OUTPUT_DIR name) files.

Definition completion_line : string := "✅ Site generation complete.".

(** Lines have been added to the output, the closing line not among them. *)
Definition quiet (w w' : World) : Prop :=
  exists lines,
    stdout w' = (stdout w ++ lines)%list /\ ~ In completion_line lines.

(** Lines have been added to the output, the closing line last and only
    there. *)
Definition announced (w w' : World) : Prop :=
  exists lines,
    stdout w' = (stdout w ++ lines ++ [completion_line])%list /\
    ~ In completion_line lines.

(** [{"pages": {"index.html": "Home", "about.html": "About"}}]: the pages
    are the keys of an object. *)
Definition object_pages_text : string :=
  "{" ++ DQ ++ "pages" ++ DQ ++ ": {" ++
  DQ ++ "index.html" ++ DQ ++ ": " ++ DQ ++ "Home" ++ DQ ++ ", " ++
  DQ ++ "about.html" ++ DQ ++ ": " ++ DQ ++ "About" ++ DQ ++ "}}".
Definition object_pages : pyval :=
  PyDict [("pages", PyDict [("index.html", PyStr "Home");
                            ("about.html", PyStr "About")])].
Definition env_object_pages : Env :=
  stub_env (Some "sk-test") demo_prompt
    [chat_reply object_pages_text; chat_reply "<h1>H</h1>"; chat_reply "<p>F</p>";
     chat_reply "body {}"; chat_reply "<h1>Home</h1>"; chat_reply "<h1>About</h1>"]
    [(object_pages_text, object_pages)].

(** * Properties *)

(** ** Strings *)

Lemma append_nil_r (s : string) : s ++ "" = s.
Proof. induction s as [|c s IH]; simpl; [reflexivity | now rewrite IH]. Qed.

Lemma append_assoc (a b c : string) : (a ++ b) ++ c = a ++ b ++ c.
Proof. induction a as [|x a IH]; simpl; [reflexivity | now rewrite IH]. Qed.

Lemma length_append (a b : string) :
  String.length (a ++ b) = String.length a + String.length b.
Proof. induction a as [|x a IH]; simpl; [reflexivity | now rewrite IH]. Qed.

Lemma append_inv_head (a b c : string) : a ++ b = a ++ c -> b = c.
Proof.
  induction a as [|x a IH]; simpl; intros H.
  - exact H.
  - injection H as H. now apply IH.
Qed.

Lemma list_ascii_of_append (a b : string) :
  list_ascii_of_string (a ++ b) =
  (list_ascii_of_string a ++ list_ascii_of_string b)%list.
Proof. induction a as [|x a IH]; simpl; [reflexivity | now rewrite IH]. Qed.

Lemma list_ascii_of_string_inj (a b : string) :
  list_ascii_of_string a = list_ascii_of_string b -> a = b.
Proof.
  intros H.
  rewrite <- (string_of_list_ascii_of_string a),
          <- (string_of_list_ascii_of_string b).
  now rewrite H.
Qed.

Lemma append_inv_tail (a b c : string) : a ++ c = b ++ c -> a = b.
Proof.
  intros H. apply list_ascii_of_string_inj.
  apply (f_equal list_ascii_of_string) in H.
  rewrite !list_ascii_of_append in H.
  now apply List.app_inv_tail in H.
Qed.

Lemma prefix_append (p s : string) : prefix p (p ++ s) = true.
Proof.
  induction p as [|x p IH]; simpl; [now destruct s|].
  destruct (ascii_dec x x) as [_|N]; [exact IH | now elim N].
Qed.

Lemma substring_whole (b c : string) : substring 0 (String.length b) (b ++ c) = b.
Proof.
  induction b as [|x b IH]; simpl.
  - now destruct c.
  - now rewrite IH.
Qed.

Lemma substring_skip (a s : string) (n m : nat) :
  substring (String.length a + n) m (a ++ s) = substring n m s.
Proof. induction a as [|x a IH]; simpl; [reflexivity | exact IH]. Qed.

Lemma substring_middle (a b c : string) :
  substring (String.length a) (String.length b) (a ++ b ++ c) = b.
Proof.
  rewrite <- (Nat.add_0_r (String.length a)), substring_skip.
  apply substring_whole.
Qed.

Lemma occurrences_skip (p a s : string) :
  occurrences p s <= occurrences p (a ++ s).
Proof.
  induction a as [|x a IH]; simpl; [lia|].
  destruct (prefix p (String x (a ++ s))); lia.
Qed.

Lemma occurrences_here (p s : string) : 1 <= occurrences p (p ++ s).
Proof.
  pose proof (prefix_append p s) as P.
  destruct (p ++ s) as [|x r]; cbn [occurrences]; rewrite P; lia.
Qed.

Lemma occurrences_inside (p a s : string) : 1 <= occurrences p (a ++ p ++ s).
Proof.
  pose proof (occurrences_here p s). pose proof (occurrences_skip p a (p ++ s)). lia.
Qed.

Lemma contains_in_order_cons (p before after : string) (rest : list string) :
  contains_in_order rest after ->
  contains_in_order (p :: rest) (before ++ p ++ after).
Proof. intros H. simpl. now exists before, after. Qed.

(** ** The assembler *)

Lemma assemble_page_segments (body header footer : string) :
  assemble_page body header footer =
  page_prefix ++ header ++ main_open ++ body ++ main_close ++ footer ++ page_suffix.
Proof. reflexivity. Qed.

(** C1.  For every body, header and footer the assembled text is one
    document that opens with the [<!DOCTYPE html>] declaration and holds, in
    this order: the declaration, the UTF-8 charset meta tag, the viewport
    meta tag, the stylesheet link to [main.css], the opening of the body
    region, the header, the body between [<main>] and [</main>], the footer,
    the closing of the body region and the closing of the document, with
    which the text ends. *)
Theorem assemble_page_document (body header footer : string) :
  prefix doctype (assemble_page body header footer) = true /\
  contains_in_order
    [doctype; meta_charset; meta_viewport; stylesheet_link;
     "<body>"; header; "<main>" ++ LF ++ body ++ LF ++ "</main>"; footer;
     "</body>"; "</html>" ++ LF]
    (assemble_page body header footer) /\
  exists before, assemble_page body header footer = before ++ "</html>" ++ LF.
Proof.
  split; [reflexivity|]. split.
  - replace (assemble_page body header footer) with
      ("" ++ doctype ++
       (LF ++ "<html lang=" ++ DQ ++ "en" ++ DQ ++ ">" ++ LF ++ "<head>" ++ LF ++ "  ")
         ++ meta_charset ++
       (LF ++ "  ") ++ meta_viewport ++
       (LF ++ "  ") ++ stylesheet_link ++
       (LF ++ "</head>" ++ LF) ++ "<body>" ++
       LF ++ header ++
       LF ++ ("<main>" ++ LF ++ body ++ LF ++ "</main>") ++
       LF ++ footer ++
       LF ++ "</body>" ++
       LF ++ ("</html>" ++ LF) ++ "")
      by (rewrite !append_assoc; reflexivity).
    repeat apply contains_in_order_cons. exact I.
  - exists (page_prefix ++ header ++ main_open ++ body ++ main_close ++ footer
              ++ LF ++ "</body>" ++ LF).
    rewrite assemble_page_segments.
    rewrite !append_assoc. reflexivity.
Qed.

(** C6, as amended.  The assembled text is the fixed template with the
    header, the body and the footer copied into one slot each: each blob
    stands verbatim at its slot, the header's slot ends before the body's
    begins and the body's before the footer's, and the text is exactly as
    long as the template and the three blobs together, so nothing is
    repeated or cut.  Each blob therefore occurs in the text at least
    once. *)
Theorem assemble_page_slots (body header footer : string) :
  let doc := assemble_page body header footer in
  let at_header := String.length page_prefix in
  let at_body := at_header + String.length header + String.length main_open in
  let at_footer := at_body + String.length body + String.length main_close in
  doc = page_prefix ++ header ++ main_open ++ body ++ main_close ++ footer ++ page_suffix /\
  substring at_header (String.length header) doc = header /\
  substring at_body (String.length body) doc = body /\
  substring at_footer (String.length footer) doc = footer /\
  at_header + String.length header < at_body /\
  at_body + String.length body < at_footer /\
  String.length doc =
    String.length (assemble_page "" "" "") +
    String.length header + String.length body + String.length footer /\
  1 <= occurrences header doc /\
  1 <= occurrences body doc /\
  1 <= occurrences footer doc.
Proof.
  intros doc at_header at_body at_footer.
  assert (E : doc = page_prefix ++ header ++ main_open ++ body ++ main_close
                      ++ footer ++ page_suffix) by apply assemble_page_segments.
  assert (Lo : String.length main_open = 8) by reflexivity.
  assert (Lc : String.length main_close = 9) by reflexivity.
  split; [exact E|].
  split; [rewrite E; apply substring_middle|].
  split.
  { rewrite E. subst at_body at_header.
    replace (page_prefix ++ header ++ main_open ++ body ++ main_close ++ footer ++ page_suffix)
      with ((page_prefix ++ header ++ main_open) ++ body ++ main_close ++ footer ++ page_suffix)
      by (rewrite !append_assoc; reflexivity).
    replace (String.length page_prefix + String.length header + String.length main_open)
      with (String.length (page_prefix ++ header ++ main_open))
      by (rewrite !length_append; lia).
    apply substring_middle. }
  split.
  { rewrite E. subst at_footer at_body at_header.
    replace (page_prefix ++ header ++ main_open ++ body ++ main_close ++ footer ++ page_suffix)
      with ((page_prefix ++ header ++ main_open ++ body ++ main_close) ++ footer ++ page_suffix)
      by (rewrite !append_assoc; reflexivity).
    replace (String.length page_prefix + String.length header + String.length main_open
             + String.length body + String.length main_close)
      with (String.length (page_prefix ++ header ++ main_open ++ body ++ main_close))
      by (rewrite !length_append; lia).
    apply substring_middle. }
  split; [subst at_body; lia|].
  split; [subst at_footer; lia|].
  split.
  { rewrite E, !length_append.
    change (String.length (assemble_page "" "" ""))
      with (String.length page_prefix + String.length main_open
            + String.length main_close + String.length page_suffix).
    lia. }
  split; [rewrite E; apply occurrences_inside|].
  split.
  - rewrite E.
    replace (page_prefix ++ header ++ main_open ++ body ++ main_close ++ footer ++ page_suffix)
      with ((page_prefix ++ header ++ main_open) ++ body ++ main_close ++ footer ++ page_suffix)
      by (rewrite !append_assoc; reflexivity).
    apply occurrences_inside.
  - rewrite E.
    replace (page_prefix ++ header ++ main_open ++ body ++ main_close ++ footer ++ page_suffix)
      with ((page_prefix ++ header ++ main_open ++ body ++ main_close) ++ footer ++ page_suffix)
      by (rewrite !append_assoc; reflexivity).
    apply occurrences_inside.
Qed.

(** C6, as stated, fails: when the page body repeats the header's markup,
    the header's text occurs twice in the assembled document, not once. *)
Lemma assemble_page_header_occurs_twice :
  occurrences "<h1>Site</h1>"
    (assemble_page "<h1>Site</h1><p>Welcome</p>" "<h1>Site</h1>" "<p>F</p>") = 2 /\
  occurrences "<h1>Site</h1>"
    (assemble_page "<h1>Site</h1><p>Welcome</p>" "<h1>Site</h1>" "<p>F</p>") <> 1.
Proof. split; [vm_compute; reflexivity | vm_compute; discriminate]. Qed.

(** C7.  With the header and the footer fixed, two different bodies give two
    different documents. *)
Theorem assemble_page_body_injective (body1 body2 header footer : string) :
  body1 <> body2 ->
  assemble_page body1 header footer <> assemble_page body2 header footer.
Proof.
  intros Hne Heq. apply Hne.
  rewrite !assemble_page_segments in Heq.
  apply append_inv_head in Heq. apply append_inv_head in Heq.
  apply append_inv_head in Heq.
  eapply append_inv_tail. exact Heq.
Qed.

Lemma assemble_page_body_injective_witness :
  "<h1>Index</h1>" <> "<h1>Pricing</h1>" /\
  assemble_page "<h1>Index</h1>" "<h1>H</h1>" "<p>F</p>" <>
  assemble_page "<h1>Pricing</h1>" "<h1>H</h1>" "<p>F</p>".
Proof.
  split; [discriminate|].
  apply (assemble_page_body_injective "<h1>Index</h1>" "<h1>Pricing</h1>").
  discriminate.
Defined.

(** C8.  Called on three strings, the assembler returns a document and
    raises nothing, in every environment and every world; it leaves the
    world as it found it (no request, no write, no output); and the document
    depends on the three strings alone: two calls with the same strings give
    the same text, whatever the environment and the world of each call. *)
Theorem assemble_page_pure (E1 E2 : Env) (w1 w2 : World) (body header footer : string) :
  assemble_page_call E1 (PyStr body) (PyStr header) (PyStr footer) w1 =
    (Returns (assemble_page body header footer), w1) /\
  fst (assemble_page_call E1 (PyStr body) (PyStr header) (PyStr footer) w1) =
  fst (assemble_page_call E2 (PyStr body) (PyStr header) (PyStr footer) w2).
Proof. split; reflexivity. Qed.

(** ** The generation client *)

Lemma bind_returns {A B : Type} (m : M A) (k : A -> M B) (w w' : World) (a : A) :
  m w = (Returns a, w') -> bind m k w = k a w'.
Proof. intros H. unfold bind. now rewrite H. Qed.

Lemma bind_raises {A B : Type} (m : M A) (k : A -> M B) (w w' : World) (e : exn) :
  m w = (Raises e, w') -> bind m k w = (Raises e, w').
Proof. intros H. unfold bind. now rewrite H. Qed.

(** [call_ai] sends exactly one request, whatever comes of it, and its
    result is what [reply_outcome] reads off the reply. *)
Lemma call_ai_run (E : Env) (system_prompt user_prompt : string) (w : World) :
  call_ai E system_prompt user_prompt w =
  (reply_outcome E (net_log w) (chat_request E system_prompt user_prompt),
   sent (chat_request E system_prompt user_prompt) w).
Proof.
  unfold call_ai, reply_outcome, bind, post, lift.
  destruct (requests_post E (net_log w) _) as [response|]; [|reflexivity].
  destruct (raise_for_status response) as [[]|e]; [|reflexivity].
  destruct (response_json response) as [reply|e]; [|reflexivity].
  destruct (py_getitem reply (KStr "choices")) as [choices|e]; [|reflexivity].
  destruct (py_getitem choices (KInt 0)) as [choice|e]; [|reflexivity].
  destruct (py_getitem choice (KStr "message")) as [message|e]; [|reflexivity].
  reflexivity.
Qed.

Lemma seq_index_raises {A : Type} (xs : list A) (i : Z) (e : exn) :
  seq_index xs i = Raises e -> e = IndexError.
Proof.
  unfold seq_index.
  destruct (_ <? 0)%Z; [congruence|].
  destruct (nth_error _ _); congruence.
Qed.

Lemma py_getitem_raises (v : pyval) (k : pykey) (e : exn) :
  py_getitem v k = Raises e -> is_lookup_error e = true.
Proof.
  destruct v, k; simpl; try (intros H; injection H as <-; reflexivity).
  - destruct (seq_index (py_chars s) i) eqn:S; [discriminate|].
    intros H; injection H as <-. now rewrite (seq_index_raises _ _ _ S).
  - intros H. now rewrite (seq_index_raises _ _ _ H).
  - destruct (dict_get entries k); [discriminate|].
    intros H; injection H as <-; reflexivity.
Qed.

(** The subscripts of [call_ai] find a value exactly when the reply has the
    shape of a chat completion, and then it is the content field. *)
Lemma content_field_chain (reply : pyval) :
  match content_field reply with
  | Some v =>
      exists choices choice message,
        py_getitem reply (KStr "choices") = Returns choices /\
        py_getitem choices (KInt 0) = Returns choice /\
        py_getitem choice (KStr "message") = Returns message /\
        py_getitem message (KStr "content") = Returns v
  | None =>
      forall choices choice message v,
        py_getitem reply (KStr "choices") = Returns choices ->
        py_getitem choices (KInt 0) = Returns choice ->
        py_getitem choice (KStr "message") = Returns message ->
        py_getitem message (KStr "content") = Returns v -> False
  end.
Proof.
  destruct reply as [| | | | |items|top]; simpl; try (intros; discriminate).
  destruct (dict_get top "choices") as [choices0|] eqn:C; [|intros; discriminate].
  destruct choices0 as [| | | |s|items|d]; simpl;
    try (intros ? ? ? ? H1 H2; injection H1 as <-; discriminate).
  - (* choices is text: its first character has no "message" *)
    intros ? ? ? ? H1 H2 H3. injection H1 as <-. simpl in H2.
    destruct (seq_index (py_chars s) 0); [|discriminate].
    injection H2 as <-. discriminate.
  - destruct items as [|first rest]; simpl.
    + intros ? ? ? ? H1 H2. injection H1 as <-. discriminate.
    + destruct first as [| | | | | |choice0];
        try (intros ? ? ? ? H1 H2 H3; injection H1 as <-; injection H2 as <-;
             discriminate).
      destruct (dict_get choice0 "message") as [message0|] eqn:Ms.
      * destruct message0 as [| | | | | |message1];
          try (intros ? ? ? ? H1 H2 H3 H4; injection H1 as <-; injection H2 as <-;
               simpl in H3; rewrite Ms in H3; injection H3 as <-; discriminate).
        destruct (dict_get message1 "content") as [v|] eqn:Ct.
        -- exists (PyList (PyDict choice0 :: rest)), (PyDict choice0), (PyDict message1).
           repeat split; simpl; try rewrite Ms; try rewrite Ct; reflexivity.
        -- intros ? ? ? ? H1 H2 H3 H4. injection H1 as <-. injection H2 as <-.
           simpl in H3. rewrite Ms in H3. injection H3 as <-.
           simpl in H4. rewrite Ct in H4. discriminate.
      * intros ? ? ? ? H1 H2 H3. injection H1 as <-. injection H2 as <-.
        simpl in H3. rewrite Ms in H3. discriminate.
Qed.



(** ** The pipeline driver *)

(** C4.  Without the credential, [main] raises its configuration error
    ([RuntimeError], line 135) at once: the world is left as it was, so no
    request has been sent (and nothing has been written or printed). *)
Theorem main_without_credential (E : Env) (w : World) :
  OPENROUTER_API_KEY E = None ->
  main E w = (Raises (RuntimeError "OPENROUTER_API_KEY not set"), w) /\
  net_log (snd (main E w)) = net_log w.
Proof.
  intros H. unfold main. rewrite H. cbn [truthy negb]. split; reflexivity.
Qed.

Lemma main_without_credential_witness :
  OPENROUTER_API_KEY env_no_key = None /\
  main env_no_key fresh =
    (Raises (RuntimeError "OPENROUTER_API_KEY not set"), fresh) /\
  net_log (snd (main env_no_key fresh)) = net_log fresh.
Proof.
  split; [reflexivity|].
  apply (main_without_credential env_no_key fresh). reflexivity.
Defined.

Lemma bind_assoc {A B C : Type} (m : M A) (k1 : A -> M B) (k2 : B -> M C) (w : World) :
  bind (bind m k1) k2 w = bind m (fun a => bind (k1 a) k2) w.
Proof. unfold bind. destruct (m w) as [[a|e] w1]; reflexivity. Qed.

Lemma bind_lift_returns {A B : Type} (a : A) (k : A -> M B) (w : World) :
  bind (lift (Returns a)) k w = k a w.
Proof. reflexivity. Qed.

Lemma bind_lift_raises {A B : Type} (e : exn) (k : A -> M B) (w : World) :
  bind (lift (Raises e)) k w = (Raises e, w).
Proof. reflexivity. Qed.

Lemma bind_print {B : Type} (line : string) (k : unit -> M B) (w : World) :
  bind (print line) k w = k tt (printed line w).
Proof. reflexivity. Qed.

Lemma bind_call_ai {B : Type} (E : Env) (system_prompt user_prompt : string)
    (k : pyval -> M B) (w : World) (v : pyval) :
  reply_outcome E (net_log w) (chat_request E system_prompt user_prompt) = Returns v ->
  bind (call_ai E system_prompt user_prompt) k w =
  k v (sent (chat_request E system_prompt user_prompt) w).
Proof. intros H. apply bind_returns. rewrite call_ai_run. now rewrite H. Qed.

Lemma bind_write_text {B : Type} (E : Env) (file text : string)
    (k : unit -> M B) (w : World) :
  write_fails E (writes w) file text = false ->
  bind (write_text E file (PyStr text)) k w = k tt (written file text w).
Proof. intros H. apply bind_returns. unfold write_text. now rewrite H. Qed.

(** The structure planner: one request, then [json.loads] on its result. *)
Lemma generate_structure_run (E : Env) (prompt : string) (w : World) :
  generate_structure E prompt w =
  (match reply_outcome E (net_log w) (structure_request E prompt) with
   | Returns result => py_json_loads E result
   | Raises e => Raises e
   end,
   sent (structure_request E prompt) w).
Proof.
  unfold generate_structure, bind, lift. rewrite call_ai_run.
  fold (structure_request E prompt).
  destruct (reply_outcome E (net_log w) (structure_request E prompt)); reflexivity.
Qed.

(** Under [setup_succeeds], [main] reaches the page loop in the world
    [after_setup]. *)
Lemma main_setup (E : Env) (w : World) (prompt : string) (structure : pyval)
    (header footer css : string) :
  setup_succeeds E w prompt structure header footer css ->
  main E w =
  page_stage E prompt structure (PyStr header) (PyStr footer)
    (after_setup E prompt header footer css w).
Proof.
  intros (Hkey & Hprompt & (text & Hs & Hj) & Hh & Hf & Wh & Wf & Hc & Wc).
  unfold main. rewrite Hkey. cbn [negb].
  rewrite Hprompt, bind_lift_returns, bind_print.
  rewrite (bind_returns _ _ _ (sent (structure_request E prompt)
             (printed "🔹 Generating site structure..." w)) structure).
  2:{ rewrite generate_structure_run. cbn [net_log printed].
      rewrite Hs. unfold py_json_loads. now rewrite Hj. }
  rewrite bind_print.
  unfold generate_header, generate_footer, generate_css.
  erewrite bind_call_ai by (cbn [net_log printed sent]; exact Hh).
  erewrite bind_call_ai
    by (cbn [net_log printed sent]; rewrite <- app_assoc; exact Hf).
  erewrite bind_write_text by (cbn [writes printed sent]; exact Wh).
  erewrite bind_write_text by (cbn [writes printed sent written]; exact Wf).
  rewrite bind_print.
  erewrite bind_call_ai
    by (cbn [net_log printed sent written]; rewrite <- !app_assoc; exact Hc).
  erewrite bind_write_text
    by (cbn [writes printed sent written]; rewrite <- app_assoc; exact Wc).
  rewrite bind_print.
  unfold page_stage. f_equal.
  unfold after_setup, setup_requests, shared_files, sent, written, printed.
  cbn [net_log writes stdout].
  rewrite <- !app_assoc. reflexivity.
Qed.

Lemma structure_request_is_no_page_request (E : Env) (prompt : string) (page : pyval) :
  structure_request E prompt <> page_request E prompt page.
Proof.
  intros H. apply (f_equal messages) in H.
  unfold structure_request, page_request, chat_request in H. cbn [messages] in H.
  discriminate H.
Qed.

(** C2.  When what the structure call returns cannot be decoded, that is,
    when [json.loads] raises on it (a text that is not JSON, or a value that
    is not text at all), the structure planner raises the decoder's error
    and so does the run.  The run has then sent one request only, the
    structure request, which is not a page-generation request, and has
    written nothing. *)
Theorem main_structure_not_json (E : Env) (w : World) (prompt : string)
    (result : pyval) (e : exn) :
  truthy (OPENROUTER_API_KEY E) = true ->
  read_prompt E = Returns prompt ->
  reply_outcome E (net_log w) (structure_request E prompt) = Returns result ->
  py_json_loads E result = Raises e ->
  fst (generate_structure E prompt w) = Raises e /\
  fst (main E w) = Raises e /\
  net_log (snd (main E w)) = (net_log w ++ [structure_request E prompt])%list /\
  (forall page, ~ In (page_request E prompt page) [structure_request E prompt]) /\
  writes (snd (main E w)) = writes w.
Proof.
  intros Hkey Hprompt Hs Hj.
  assert (G : forall w0, net_log w0 = net_log w ->
            generate_structure E prompt w0 =
            (Raises e, sent (structure_request E prompt) w0)).
  { intros w0 L. now rewrite generate_structure_run, L, Hs, Hj. }
  split; [now rewrite G|].
  assert (R : main E w =
              (Raises e,
               sent (structure_request E prompt)
                 (printed "🔹 Generating site structure..." w))).
  { unfold main. rewrite Hkey. cbn [negb].
    rewrite Hprompt, bind_lift_returns, bind_print.
    apply bind_raises. now apply G. }
  rewrite R. cbn [fst snd].
  split; [reflexivity|]. split; [reflexivity|]. split; [|reflexivity].
  intros page [H|[]]. now apply structure_request_is_no_page_request in H.
Qed.

Lemma main_structure_not_json_witness :
  py_json_loads env_prose (PyStr "Sure! Here is the structure of your site.")
    = Raises JSONDecodeError /\
  fst (main env_prose fresh) = Raises JSONDecodeError /\
  net_log (snd (main env_prose fresh)) = [structure_request env_prose demo_prompt].
Proof.
  split; [reflexivity|].
  destruct (main_structure_not_json env_prose fresh demo_prompt
              (PyStr "Sure! Here is the structure of your site.") JSONDecodeError
              eq_refl eq_refl eq_refl eq_refl) as (_ & H1 & H2 & _).
  split; [exact H1 | exact H2].
Defined.

(** The same on a reply whose content is null: [json.loads] raises
    [TypeError], after the one request. *)
Example main_structure_null :
  fst (main env_null_structure fresh) = Raises TypeError /\
  net_log (snd (main env_null_structure fresh)) =
    [structure_request env_null_structure demo_prompt] /\
  writes (snd (main env_null_structure fresh)) = [].
Proof. repeat split; vm_compute; reflexivity. Qed.

(** C3, as stated, fails: on the reply [{}], valid JSON without a [pages]
    field, the structure planner returns the decoded object without
    complaint; the run goes on to generate the header, the footer and the
    stylesheet and to write their three files, and fails only at the page
    loop. *)
Lemma generate_structure_accepts_missing_pages :
  fst (generate_structure env_no_field demo_prompt fresh) = Returns (PyDict []) /\
  dict_get [] "pages" = None /\
  fst (main env_no_field fresh) = Raises (KeyError (KStr "pages")) /\
  net_log (snd (main env_no_field fresh)) =
    [structure_request env_no_field demo_prompt;
     header_request env_no_field demo_prompt;
     footer_request env_no_field demo_prompt;
     css_request env_no_field demo_prompt] /\
  writes (snd (main env_no_field fresh)) =
    [("output/header.html", "<h1>H</h1>"); ("output/footer.html", "<p>F</p>");
     ("output/main.css", "body {}")].
Proof. repeat split; vm_compute; reflexivity. Qed.

(** C3, as amended.  When the structure call returns a JSON object without
    a [pages] field, the structure planner returns that object; the run
    then performs the header, footer and CSS calls and writes their three
    files (these stages succeeding), and raises [KeyError] when it reads
    [structure["pages"]], before any page-generation call: the requests
    sent are those four and the files written those three. *)
Theorem main_structure_without_pages (E : Env) (w : World) (prompt : string)
    (entries : list (string * pyval)) (header footer css : string) :
  setup_succeeds E w prompt (PyDict entries) header footer css ->
  dict_get entries "pages" = None ->
  fst (generate_structure E prompt w) = Returns (PyDict entries) /\
  fst (main E w) = Raises (KeyError (KStr "pages")) /\
  net_log (snd (main E w)) = (net_log w ++ setup_requests E prompt)%list /\
  writes (snd (main E w)) = (writes w ++ shared_files E header footer css)%list.
Proof.
  intros S Hnone. split.
  - destruct S as (_ & _ & (text & Hs & Hj) & _).
    rewrite generate_structure_run, Hs. unfold py_json_loads. now rewrite Hj.
  - rewrite (main_setup _ _ _ _ _ _ _ S).
    unfold page_stage. cbn [py_getitem]. rewrite Hnone, bind_lift_raises.
    repeat split.
Qed.

Lemma main_structure_without_pages_witness :
  setup_succeeds env_no_field fresh demo_prompt (PyDict [])
    "<h1>H</h1>" "<p>F</p>" "body {}" /\
  fst (main env_no_field fresh) = Raises (KeyError (KStr "pages")).
Proof.
  assert (S : setup_succeeds env_no_field fresh demo_prompt (PyDict [])
                "<h1>H</h1>" "<p>F</p>" "body {}").
  { repeat split; try reflexivity. exists "{}". split; reflexivity. }
  split; [exact S|].
  exact (proj1 (proj2 (main_structure_without_pages env_no_field fresh demo_prompt
                         [] "<h1>H</h1>" "<p>F</p>" "body {}" S eq_refl))).
Defined.

(** C9.  When the structure decodes to an empty page list (and the stages
    before the page loop succeed), the run ends normally having sent the
    four stage requests, no page-generation request, and having written
    exactly three files: [header.html], [footer.html] and [main.css]. *)
Theorem main_empty_page_list (E : Env) (w : World) (prompt : string)
    (structure : pyval) (header footer css : string) :
  setup_succeeds E w prompt structure header footer css ->
  py_getitem structure (KStr "pages") = Returns (PyList []) ->
  fst (main E w) = Returns tt /\
  net_log (snd (main E w)) = (net_log w ++ setup_requests E prompt)%list /\
  writes (snd (main E w)) =
    (writes w ++ [(path_div E OUTPUT_DIR "header.html", header);
                  (path_div E OUTPUT_DIR "footer.html", footer);
                  (path_div E OUTPUT_DIR "main.css", css)])%list.
Proof.
  intros S Hpages.
  rewrite (main_setup _ _ _ _ _ _ _ S).
  unfold page_stage. rewrite Hpages, bind_lift_returns.
  cbn [py_iter]. rewrite bind_lift_returns. cbn [for_each].
  repeat split.
Qed.

Lemma main_empty_page_list_witness :
  setup_succeeds env_no_pages fresh demo_prompt (PyDict [("pages", PyList [])])
    "<h1>H</h1>" "<p>F</p>" "body {}" /\
  fst (main env_no_pages fresh) = Returns tt /\
  writes (snd (main env_no_pages fresh)) =
    [("output/header.html", "<h1>H</h1>"); ("output/footer.html", "<p>F</p>");
     ("output/main.css", "body {}")].
Proof.
  assert (S : setup_succeeds env_no_pages fresh demo_prompt
                (PyDict [("pages", PyList [])]) "<h1>H</h1>" "<p>F</p>" "body {}").
  { repeat split; try reflexivity. exists no_pages_text. split; reflexivity. }
  split; [exact S|].
  destruct (main_empty_page_list env_no_pages fresh demo_prompt
              (PyDict [("pages", PyList [])]) "<h1>H</h1>" "<p>F</p>" "body {}"
              S eq_refl) as (H1 & _ & H3).
  split; [exact H1 | exact H3].
Defined.

(** ** The page loop *)

Lemma bind_inv {A B : Type} (m : M A) (k : A -> M B) (w w' : World) (b : B) :
  bind m k w = (Returns b, w') ->
  exists a w1, m w = (Returns a, w1) /\ k a w1 = (Returns b, w').
Proof.
  unfold bind. destruct (m w) as [[a|e] w1]; intros H; [|discriminate].
  now exists a, w1.
Qed.

Lemma file_content_app (ws later : list (string * string)) (file : string) :
  file_content (ws ++ later) file =
  match file_content later file with
  | Some text => Some text
  | None => file_content ws file
  end.
Proof.
  induction ws as [|[f t] ws IH]; simpl.
  - now destruct (file_content later file).
  - rewrite IH. now destruct (file_content later file).
Qed.

Lemma file_content_written (ws : list (string * string)) (file text : string) :
  file_content (ws ++ [(file, text)]) file = Some text.
Proof. rewrite file_content_app. simpl. now rewrite String.eqb_refl. Qed.

Lemma file_content_elsewhere (ws : list (string * string)) (f file text : string) :
  f <> file ->
  file_content (ws ++ [(f, text)]) file = file_content ws file.
Proof.
  intros N. rewrite file_content_app. simpl.
  apply String.eqb_neq in N. now rewrite N.
Qed.

(** A turn of the loop that completes has sent the page request, received a
    body for it and written the assembled document under the page's name. *)
Lemma page_step_inv (E : Env) (prompt : string) (header footer : pyval)
    (name : string) (w w1 : World) :
  page_step E prompt header footer (PyStr name) w = (Returns tt, w1) ->
  exists body,
    reply_outcome E (net_log w) (page_request E prompt (PyStr name)) = Returns body /\
    w1 = printed ("   ✔ " ++ name)
           (written (path_div E OUTPUT_DIR name)
              (assemble_page (py_str E body) (py_str E header) (py_str E footer))
              (sent (page_request E prompt (PyStr name)) w)).
Proof.
  unfold page_step, generate_page. intros H.
  apply bind_inv in H. destruct H as (body & w2 & Hcall & H).
  rewrite call_ai_run in Hcall. injection Hcall as Hbody <-.
  exists body. split; [exact Hbody|].
  unfold assemble_page_call in H. apply bind_inv in H.
  destruct H as (doc & w3 & Hdoc & H). injection Hdoc as <- <-.
  cbn [py_truediv] in H. rewrite bind_lift_returns in H.
  apply bind_inv in H. destruct H as ([] & w4 & Hwrite & H).
  unfold write_text in Hwrite.
  destruct (write_fails E _ _ _); [discriminate|].
  injection Hwrite as <-.
  cbn [py_str] in H. unfold print in H. now injection H as <-.
Qed.

Lemma page_loop_run (E : Env) (prompt : string) (header footer : pyval)
    (names : list string) :
  forall w w',
  for_each (map PyStr names) (page_step E prompt header footer) w = (Returns tt, w') ->
  net_log w' =
    (net_log w ++ map (fun n => page_request E prompt (PyStr n)) names)%list /\
  map fst (writes w') =
    (map fst (writes w) ++ map (path_div E OUTPUT_DIR) names)%list /\
  (forall file,
      (forall n, In n names -> path_div E OUTPUT_DIR n <> file) ->
      file_content (writes w') file = file_content (writes w) file) /\
  (forall before name after,
      names = (before ++ name :: after)%list ->
      (forall other, In other after ->
         path_div E OUTPUT_DIR other <> path_div E OUTPUT_DIR name) ->
      exists body,
        reply_outcome E
          (net_log w ++ map (fun n => page_request E prompt (PyStr n)) before)
          (page_request E prompt (PyStr name)) = Returns body /\
        file_content (writes w') (path_div E OUTPUT_DIR name) =
          Some (assemble_page (py_str E body) (py_str E header) (py_str E footer))).
Proof.
  induction names as [|n rest IH]; intros w w' H.
  - cbn in H. injection H as <-.
    rewrite !app_nil_r. repeat split.
    intros [|] ? ? D; discriminate D.
  - cbn [map for_each] in H. apply bind_inv in H.
    destruct H as ([] & w1 & Hstep & Hrest).
    apply page_step_inv in Hstep. destruct Hstep as (b & Hreply & ->).
    destruct (IH _ _ Hrest) as (Hlog & Hfiles & Hkeep & Hlast).
    cbn [net_log writes printed written sent] in Hlog, Hfiles, Hkeep, Hlast.
    split; [|split; [|split]].
    + rewrite Hlog, <- app_assoc. reflexivity.
    + rewrite Hfiles, map_app, <- app_assoc. reflexivity.
    + intros file Hfile. rewrite Hkeep.
      * apply file_content_elsewhere. apply Hfile. now left.
      * intros m Hm. apply Hfile. now right.
    + intros before name after Hsplit Hafter.
      destruct before as [|n' before'].
      * cbn [app] in Hsplit. injection Hsplit as -> ->.
        exists b. cbn [map]. rewrite app_nil_r. split; [exact Hreply|].
        rewrite (Hkeep _ Hafter). apply file_content_written.
      * cbn [app] in Hsplit. injection Hsplit as <- ->.
        destruct (Hlast before' name after eq_refl Hafter) as (body & Hb & Hc).
        exists body. split; [|exact Hc].
        cbn [map]. rewrite <- app_assoc in Hb. exact Hb.
Qed.

(** C10.  Let the page list be a list of names and let the run complete
    (the stages before the loop succeeding as [setup_succeeds] says).  Then
    the requests sent in the loop are the page requests of the names of the
    list, one for each element in the list's order, and so are the writes:
    a name listed twice is requested twice and written twice.  For an
    occurrence of a name after which no listed name designates the same
    file, hence for the last occurrence of a repeated name, the file holds
    at the end the document assembled from the body returned to the request
    of that very occurrence. *)
Theorem main_repeated_page (E : Env) (w w' : World) (prompt : string)
    (structure : pyval) (names : list string) (header footer css : string) :
  setup_succeeds E w prompt structure header footer css ->
  py_getitem structure (KStr "pages") = Returns (PyList (map PyStr names)) ->
  main E w = (Returns tt, w') ->
  net_log w' =
    (net_log w ++ setup_requests E prompt ++
     map (fun n => page_request E prompt (PyStr n)) names)%list /\
  map fst (writes w') =
    (map fst (writes w) ++ map fst (shared_files E header footer css) ++
     map (path_div E OUTPUT_DIR) names)%list /\
  (forall before name after,
      names = (before ++ name :: after)%list ->
      (forall other, In other after ->
         path_div E OUTPUT_DIR other <> path_div E OUTPUT_DIR name) ->
      exists body,
        reply_outcome E
          (net_log w ++ setup_requests E prompt ++
           map (fun n => page_request E prompt (PyStr n)) before)
          (page_request E prompt (PyStr name)) = Returns body /\
        file_content (writes w') (path_div E OUTPUT_DIR name) =
          Some (assemble_page (py_str E body) header footer)).
Proof.
  intros S Hpages Hrun.
  rewrite (main_setup _ _ _ _ _ _ _ S) in Hrun.
  unfold page_stage in Hrun.
  rewrite Hpages, bind_lift_returns in Hrun. cbn [py_iter] in Hrun.
  rewrite bind_lift_returns in Hrun.
  apply bind_inv in Hrun. destruct Hrun as ([] & w2 & Hloop & Hend).
  unfold print in Hend. injection Hend as <-.
  apply page_loop_run in Hloop.
  destruct Hloop as (Hlog & Hfiles & _ & Hlast).
  cbn [net_log writes stdout after_setup printed] in *.
  split; [|split].
  - rewrite Hlog, <- app_assoc. reflexivity.
  - rewrite Hfiles, map_app, <- app_assoc. reflexivity.
  - intros before name after Hsplit Hafter.
    destruct (Hlast before name after Hsplit Hafter) as (body & Hb & Hc).
    exists body. split; [|exact Hc].
    rewrite <- app_assoc in Hb. exact Hb.
Qed.

Lemma main_repeated_page_witness :
  setup_succeeds env_repeated fresh demo_prompt
    (PyDict [("pages", PyList (map PyStr ["index.html"; "pricing.html"; "index.html"]))])
    "<h1>H</h1>" "<p>F</p>" "body {}" /\
  fst (main env_repeated fresh) = Returns tt /\
  map fst (writes (snd (main env_repeated fresh))) =
    ["output/header.html"; "output/footer.html"; "output/main.css";
     "output/index.html"; "output/pricing.html"; "output/index.html"] /\
  file_content (writes (snd (main env_repeated fresh))) "output/index.html" =
    Some (assemble_page "<h1>Index, second draft</h1>" "<h1>H</h1>" "<p>F</p>").
Proof.
  assert (S : setup_succeeds env_repeated fresh demo_prompt
                (PyDict [("pages",
                          PyList (map PyStr ["index.html"; "pricing.html"; "index.html"]))])
                "<h1>H</h1>" "<p>F</p>" "body {}").
  { repeat split; try reflexivity. exists repeated_pages_text. split; reflexivity. }
  split; [exact S|].
  split; [vm_compute; reflexivity|].
  assert (R : main env_repeated fresh = (Returns tt, snd (main env_repeated fresh)))
    by (vm_compute; reflexivity).
  destruct (main_repeated_page env_repeated fresh _ demo_prompt _
              ["index.html"; "pricing.html"; "index.html"] _ _ _ S eq_refl R)
    as (_ & Hfiles & Hlast).
  split; [exact Hfiles|].
  destruct (Hlast ["index.html"; "pricing.html"] "index.html" [] eq_refl
              (fun other (H : In other []) => match H with end))
    as (body & Hb & Hc).
  vm_compute in Hb. injection Hb as <-. exact Hc.
Defined.

(** ** The end-to-end scenario

    The run of section 8 of the specification: header, footer, stylesheet
    and the two pages are written, in this order, and [index.html] is the
    document assembled from its body and the shared header and footer. *)
Example main_scenario :
  fst (main env_scenario fresh) = Returns tt /\
  map fst (writes (snd (main env_scenario fresh))) =
    ["output/header.html"; "output/footer.html"; "output/main.css";
     "output/index.html"; "output/pricing.html"] /\
  file_content (writes (snd (main env_scenario fresh))) "output/index.html" =
    Some (assemble_page "<h1>Index</h1>" "<h1>H</h1>" "<p>F</p>") /\
  List.length (net_log (snd (main env_scenario fresh))) = 6.
Proof. repeat split; vm_compute; reflexivity. Qed.

(** * Further properties *)

(** ** The assembler, in its other arguments *)

(** X1.  With the body and the footer fixed, two different headers give two
    different documents. *)
Theorem assemble_page_header_injective (body header1 header2 footer : string) :
  header1 <> header2 ->
  assemble_page body header1 footer <> assemble_page body header2 footer.
Proof.
  intros Hne Heq. apply Hne.
  rewrite !assemble_page_segments in Heq.
  apply append_inv_head in Heq.
  eapply append_inv_tail. exact Heq.
Qed.

Lemma assemble_page_header_injective_witness :
  "<h1>H</h1>" <> "<nav>H</nav>" /\
  assemble_page "<h1>Index</h1>" "<h1>H</h1>" "<p>F</p>" <>
  assemble_page "<h1>Index</h1>" "<nav>H</nav>" "<p>F</p>".
Proof.
  split; [discriminate|].
  apply (assemble_page_header_injective "<h1>Index</h1>" "<h1>H</h1>" "<nav>H</nav>").
  discriminate.
Defined.

(** X2.  With the body and the header fixed, two different footers give two
    different documents. *)
Theorem assemble_page_footer_injective (body header footer1 footer2 : string) :
  footer1 <> footer2 ->
  assemble_page body header footer1 <> assemble_page body header footer2.
Proof.
  intros Hne Heq. apply Hne.
  rewrite !assemble_page_segments in Heq.
  do 5 apply append_inv_head in Heq.
  eapply append_inv_tail. exact Heq.
Qed.

Lemma assemble_page_footer_injective_witness :
  "<p>F</p>" <> "<p>G</p>" /\
  assemble_page "<h1>Index</h1>" "<h1>H</h1>" "<p>F</p>" <>
  assemble_page "<h1>Index</h1>" "<h1>H</h1>" "<p>G</p>".
Proof.
  split; [discriminate|].
  apply (assemble_page_footer_injective "<h1>Index</h1>" "<h1>H</h1>" "<p>F</p>" "<p>G</p>").
  discriminate.
Defined.

(** X3.  The three blobs together are not recoverable from the document:
    text moved from the end of the header to the start of the body, across
    the [<main>] line, gives the same document. *)
Theorem assemble_page_not_jointly_injective (header middle body footer : string) :
  assemble_page body (header ++ main_open ++ middle) footer =
  assemble_page (middle ++ main_open ++ body) header footer.
Proof.
  rewrite !assemble_page_segments, !append_assoc. reflexivity.
Qed.

(** ** The generation client, case by case *)

Lemma reply_outcome_response (E : Env) (log : list Request) (req : Request)
    (response : Response) :
  requests_post E log req = Some response ->
  reply_outcome E log req =
  if is_error_status (status_code response)
  then Raises (HTTPError (status_code response))
  else
    match json response with
    | None => Raises ResponseJSONDecodeError
    | Some reply =>
        match py_getitem reply (KStr "choices") with
        | Raises e => Raises e
        | Returns choices =>
            match py_getitem choices (KInt 0) with
            | Raises e => Raises e
            | Returns choice =>
                match py_getitem choice (KStr "message") with
                | Raises e => Raises e
                | Returns message => py_getitem message (KStr "content")
                end
            end
        end
    end.
Proof.
  intros H. unfold reply_outcome, raise_for_status, response_json, is_error_status.
  rewrite H.
  destruct ((400 <=? status_code response) && (status_code response <? 600))%Z;
    [reflexivity|].
  destruct (json response); reflexivity.
Qed.

(** The subscripts on a decoded reply: the content field, or a subscript
    error. *)
Lemma reply_subscripts (reply : pyval) :
  match py_getitem reply (KStr "choices") with
  | Raises e => Raises e
  | Returns choices =>
      match py_getitem choices (KInt 0) with
      | Raises e => Raises e
      | Returns choice =>
          match py_getitem choice (KStr "message") with
          | Raises e => Raises e
          | Returns message => py_getitem message (KStr "content")
          end
      end
  end =
  match content_field reply with
  | Some v => Returns v
  | None =>
      match py_getitem reply (KStr "choices") with
      | Raises e => Raises e
      | Returns choices =>
          match py_getitem choices (KInt 0) with
          | Raises e => Raises e
          | Returns choice =>
              match py_getitem choice (KStr "message") with
              | Raises e => Raises e
              | Returns message => py_getitem message (KStr "content")
              end
          end
      end
  end /\
  (content_field reply = None ->
   exists e,
     match py_getitem reply (KStr "choices") with
     | Raises e => Raises e
     | Returns choices =>
         match py_getitem choices (KInt 0) with
         | Raises e => Raises e
         | Returns choice =>
             match py_getitem choice (KStr "message") with
             | Raises e => Raises e
             | Returns message => py_getitem message (KStr "content")
             end
         end
     end = Raises e /\ is_lookup_error e = true).
Proof.
  pose proof (content_field_chain reply) as C.
  destruct (content_field reply) as [v|].
  - destruct C as (choices & choice & message & H1 & H2 & H3 & H4).
    rewrite H1, H2, H3, H4. split; [reflexivity | discriminate].
  - split; [reflexivity|]. intros _.
    destruct (py_getitem reply (KStr "choices")) as [choices|e] eqn:H1;
      [|exists e; split; [reflexivity | exact (py_getitem_raises _ _ _ H1)]].
    destruct (py_getitem choices (KInt 0)) as [choice|e] eqn:H2;
      [|exists e; split; [reflexivity | exact (py_getitem_raises _ _ _ H2)]].
    destruct (py_getitem choice (KStr "message")) as [message|e] eqn:H3;
      [|exists e; split; [reflexivity | exact (py_getitem_raises _ _ _ H3)]].
    destruct (py_getitem message (KStr "content")) as [v|e] eqn:H4;
      [|exists e; split; [reflexivity | exact (py_getitem_raises _ _ _ H4)]].
    elim (C _ _ _ _ eq_refl H2 H3 H4).
Qed.

(** X4.  [call_ai] returns a value exactly when a response arrives whose
    status is not in 400..599 and whose decoded body has the content field;
    the value is then that field's, whatever its type. *)
Theorem call_ai_returns_iff (E : Env) (system_prompt user_prompt : string)
    (w : World) (v : pyval) :
  fst (call_ai E system_prompt user_prompt w) = Returns v <->
  exists response reply,
    requests_post E (net_log w) (chat_request E system_prompt user_prompt)
      = Some response /\
    is_error_status (status_code response) = false /\
    json response = Some reply /\
    content_field reply = Some v.
Proof.
  rewrite call_ai_run. cbn [fst]. split.
  - intros H.
    destruct (requests_post E (net_log w) (chat_request E system_prompt user_prompt))
      as [response|] eqn:P.
    + rewrite (reply_outcome_response _ _ _ _ P) in H.
      destruct (is_error_status (status_code response)) eqn:S; [discriminate|].
      destruct (json response) as [reply|] eqn:J; [|discriminate].
      exists response, reply. repeat split; try assumption.
      destruct (reply_subscripts reply) as (Hs & Hn).
      destruct (content_field reply) as [v'|].
      * rewrite Hs in H. now injection H as <-.
      * destruct (Hn eq_refl) as (e & He & _). rewrite He in H. discriminate.
    + unfold reply_outcome in H. rewrite P in H. discriminate.
  - intros (response & reply & P & S & J & C).
    rewrite (reply_outcome_response _ _ _ _ P), S, J.
    destruct (reply_subscripts reply) as (Hs & _). rewrite Hs, C. reflexivity.
Qed.

(** X5.  [call_ai] raises [HTTPError] exactly when a response arrives with
    a status in 400..599, and the error carries that status; the body of
    such a response is not looked at. *)
Theorem call_ai_http_error_iff (E : Env) (system_prompt user_prompt : string)
    (w : World) (status : Z) :
  fst (call_ai E system_prompt user_prompt w) = Raises (HTTPError status) <->
  exists response,
    requests_post E (net_log w) (chat_request E system_prompt user_prompt)
      = Some response /\
    status_code response = status /\
    (400 <= status < 600)%Z.
Proof.
  rewrite call_ai_run. cbn [fst]. split.
  - intros H.
    destruct (requests_post E (net_log w) (chat_request E system_prompt user_prompt))
      as [response|] eqn:P.
    + rewrite (reply_outcome_response _ _ _ _ P) in H.
      destruct (is_error_status (status_code response)) eqn:S.
      * injection H as <-. exists response. repeat split; unfold is_error_status in S;
          apply andb_prop in S; destruct S as [S1 S2]; lia.
      * destruct (json response) as [reply|]; [|discriminate].
        destruct (reply_subscripts reply) as (Hs & Hn).
        destruct (content_field reply) as [v'|].
        -- rewrite Hs in H. discriminate.
        -- destruct (Hn eq_refl) as (e & He & L). rewrite He in H.
           injection H as ->. discriminate L.
    + unfold reply_outcome in H. rewrite P in H. discriminate.
  - intros (response & P & <- & R).
    rewrite (reply_outcome_response _ _ _ _ P).
    unfold is_error_status.
    replace ((400 <=? status_code response) && (status_code response <? 600))%Z
      with true; [reflexivity|].
    symmetry. apply andb_true_intro. split; lia.
Qed.

(** X6.  A decoded body that is an object without a [choices] key, such as
    an error report sent with status 200, makes [call_ai] raise
    [KeyError] for that key. *)
Theorem call_ai_missing_choices (E : Env) (system_prompt user_prompt : string)
    (w : World) (response : Response) (top : list (string * pyval)) :
  requests_post E (net_log w) (chat_request E system_prompt user_prompt)
    = Some response ->
  is_error_status (status_code response) = false ->
  json response = Some (PyDict top) ->
  dict_get top "choices" = None ->
  fst (call_ai E system_prompt user_prompt w) = Raises (KeyError (KStr "choices")).
Proof.
  intros P S J C. rewrite call_ai_run. cbn [fst].
  rewrite (reply_outcome_response _ _ _ _ P), S, J.
  cbn [py_getitem]. now rewrite C.
Qed.

(** X7.  An empty list of choices makes [call_ai] raise [IndexError]. *)
Theorem call_ai_no_choice (E : Env) (system_prompt user_prompt : string)
    (w : World) (response : Response) (top : list (string * pyval)) :
  requests_post E (net_log w) (chat_request E system_prompt user_prompt)
    = Some response ->
  is_error_status (status_code response) = false ->
  json response = Some (PyDict top) ->
  dict_get top "choices" = Some (PyList []) ->
  fst (call_ai E system_prompt user_prompt w) = Raises IndexError.
Proof.
  intros P S J C. rewrite call_ai_run. cbn [fst].
  rewrite (reply_outcome_response _ _ _ _ P), S, J.
  cbn [py_getitem]. rewrite C. reflexivity.
Qed.

Lemma call_ai_missing_choices_witness :
  dict_get [("error", PyDict [("message", PyStr "No credits")])] "choices" = None /\
  fst (call_ai env_error_body header_system (header_user demo_prompt) fresh) =
    Raises (KeyError (KStr "choices")).
Proof.
  split; [reflexivity|].
  exact (call_ai_missing_choices env_error_body header_system (header_user demo_prompt)
           fresh _ _ eq_refl eq_refl eq_refl eq_refl).
Defined.

Lemma call_ai_no_choice_witness :
  dict_get [("choices", PyList [])] "choices" = Some (PyList []) /\
  fst (call_ai env_no_choice header_system (header_user demo_prompt) fresh) =
    Raises IndexError.
Proof.
  split; [reflexivity|].
  exact (call_ai_no_choice env_no_choice header_system (header_user demo_prompt)
           fresh _ _ eq_refl eq_refl eq_refl eq_refl).
Defined.

(** ** The structure planner *)

(** X8.  The structure planner returns a value exactly when the generation
    call returns a text that [json.loads] decodes, and the value is the
    decoded one, whatever its shape: nothing about it is checked. *)
Theorem generate_structure_returns_iff (E : Env) (prompt : string) (w : World)
    (structure : pyval) :
  fst (generate_structure E prompt w) = Returns structure <->
  exists text,
    fst (call_ai E structure_system (structure_user prompt) w) = Returns (PyStr text) /\
    json_loads E text = Returns structure.
Proof.
  rewrite generate_structure_run, call_ai_run. cbn [fst].
  fold (structure_request E prompt).
  destruct (reply_outcome E (net_log w) (structure_request E prompt)) as [v|e].
  - split.
    + intros H. destruct v; try discriminate H. cbn [py_json_loads] in H.
      now exists s.
    + intros (text & Hv & J). injection Hv as ->.
      cbn [py_json_loads]. exact J.
  - split; [discriminate|]. intros (text & Hv & _). discriminate.
Qed.

(** X9.  When the generation call returns something that is not text (a
    null content, say), the structure planner raises [TypeError]. *)
Theorem generate_structure_not_text (E : Env) (prompt : string) (w : World)
    (result : pyval) :
  fst (call_ai E structure_system (structure_user prompt) w) = Returns result ->
  is_text result = false ->
  fst (generate_structure E prompt w) = Raises TypeError.
Proof.
  rewrite generate_structure_run, call_ai_run. cbn [fst].
  fold (structure_request E prompt).
  intros -> T. destruct result; try reflexivity. discriminate T.
Qed.

Lemma generate_structure_not_text_witness :
  fst (call_ai env_null_structure structure_system (structure_user demo_prompt) fresh)
    = Returns PyNone /\
  fst (generate_structure env_null_structure demo_prompt fresh) = Raises TypeError.
Proof.
  split; [reflexivity|].
  exact (generate_structure_not_text env_null_structure demo_prompt fresh PyNone
           eq_refl eq_refl).
Defined.

(** ** The pipeline driver, stage by stage *)

Lemma bind_call_ai_raises {B : Type} (E : Env) (system_prompt user_prompt : string)
    (k : pyval -> M B) (w : World) (e : exn) :
  reply_outcome E (net_log w) (chat_request E system_prompt user_prompt) = Raises e ->
  bind (call_ai E system_prompt user_prompt) k w =
  (Raises e, sent (chat_request E system_prompt user_prompt) w).
Proof. intros H. apply bind_raises. rewrite call_ai_run. now rewrite H. Qed.

Lemma bind_write_not_text {B : Type} (E : Env) (file : string) (data : pyval)
    (k : unit -> M B) (w : World) :
  is_text data = false ->
  bind (write_text E file data) k w = (Raises TypeError, w).
Proof.
  intros T. apply bind_raises. unfold write_text.
  destruct data; try reflexivity. discriminate T.
Qed.

(** Under [structure_obtained], [main] reaches the header stage having sent
    the structure request. *)
Lemma main_to_components (E : Env) (w : World) (prompt : string) (structure : pyval) :
  structure_obtained E w prompt structure ->
  main E w =
  component_stage E prompt structure
    (sent (structure_request E prompt)
       (printed "🔹 Generating site structure..." w)).
Proof.
  intros (Hkey & Hprompt & text & Hs & Hj).
  unfold main. rewrite Hkey. cbn [negb].
  rewrite Hprompt, bind_lift_returns, bind_print.
  apply bind_returns.
  rewrite generate_structure_run. cbn [net_log printed].
  rewrite Hs. unfold py_json_loads. now rewrite Hj.
Qed.

(** X10.  An empty credential counts as none: [main] raises its
    configuration error and leaves the world as it was. *)
Theorem main_empty_credential (E : Env) (w : World) :
  OPENROUTER_API_KEY E = Some "" ->
  main E w = (Raises (RuntimeError "OPENROUTER_API_KEY not set"), w).
Proof. intros H. unfold main. rewrite H. reflexivity. Qed.

Lemma main_empty_credential_witness :
  OPENROUTER_API_KEY env_empty_key = Some "" /\
  main env_empty_key fresh =
    (Raises (RuntimeError "OPENROUTER_API_KEY not set"), fresh).
Proof.
  split; [reflexivity|].
  apply (main_empty_credential env_empty_key fresh). reflexivity.
Defined.

(** X11.  When the prompt file cannot be read, [main] raises the error of
    the read before anything is sent, written or printed. *)
Theorem main_prompt_unreadable (E : Env) (w : World) (e : exn) :
  truthy (OPENROUTER_API_KEY E) = true ->
  read_prompt E = Raises e ->
  main E w = (Raises e, w).
Proof.
  intros Hkey Hprompt. unfold main. rewrite Hkey. cbn [negb].
  now rewrite Hprompt, bind_lift_raises.
Qed.

Lemma main_prompt_unreadable_witness :
  read_prompt env_no_prompt = Raises OSError /\
  main env_no_prompt fresh = (Raises OSError, fresh).
Proof.
  split; [reflexivity|].
  exact (main_prompt_unreadable env_no_prompt fresh OSError eq_refl eq_refl).
Defined.

(** X12.  When the structure call fails, the run fails with the same error:
    one request has been sent, none follows, and nothing is written. *)
Theorem main_structure_call_fails (E : Env) (w : World) (prompt : string) (e : exn) :
  truthy (OPENROUTER_API_KEY E) = true ->
  read_prompt E = Returns prompt ->
  reply_outcome E (net_log w) (structure_request E prompt) = Raises e ->
  fst (main E w) = Raises e /\
  net_log (snd (main E w)) = (net_log w ++ [structure_request E prompt])%list /\
  writes (snd (main E w)) = writes w.
Proof.
  intros Hkey Hprompt Hs.
  assert (R : main E w =
              (Raises e,
               sent (structure_request E prompt)
                 (printed "🔹 Generating site structure..." w))).
  { unfold main. rewrite Hkey. cbn [negb].
    rewrite Hprompt, bind_lift_returns, bind_print.
    apply bind_raises. rewrite generate_structure_run. cbn [net_log printed].
    now rewrite Hs. }
  rewrite R. repeat split.
Qed.

Lemma main_structure_call_fails_witness :
  reply_outcome env_offline (net_log fresh) (structure_request env_offline demo_prompt)
    = Raises RequestException /\
  fst (main env_offline fresh) = Raises RequestException /\
  writes (snd (main env_offline fresh)) = [].
Proof.
  split; [reflexivity|].
  destruct (main_structure_call_fails env_offline fresh demo_prompt RequestException
              eq_refl eq_refl eq_refl) as (H1 & _ & H3).
  split; [exact H1 | exact H3].
Defined.

(** X13.  When the footer call fails, the run fails with the same error
    after three requests; the header, although obtained, has not been
    written: no file is written before both components are there. *)
Theorem main_footer_call_fails (E : Env) (w : World) (prompt : string)
    (structure header : pyval) (e : exn) :
  structure_obtained E w prompt structure ->
  reply_outcome E (net_log w ++ [structure_request E prompt])
    (header_request E prompt) = Returns header ->
  reply_outcome E (net_log w ++ [structure_request E prompt; header_request E prompt])
    (footer_request E prompt) = Raises e ->
  fst (main E w) = Raises e /\
  net_log (snd (main E w)) =
    (net_log w ++ [structure_request E prompt; header_request E prompt;
                   footer_request E prompt])%list /\
  writes (snd (main E w)) = writes w.
Proof.
  intros S Hh Hf. rewrite (main_to_components _ _ _ _ S).
  unfold component_stage, generate_header, generate_footer.
  rewrite bind_print.
  erewrite bind_call_ai by (cbn [net_log printed sent]; exact Hh).
  erewrite bind_call_ai_raises
    by (cbn [net_log printed sent]; rewrite <- app_assoc; exact Hf).
  cbn [fst snd net_log writes sent printed].
  rewrite <- !app_assoc. repeat split.
Qed.

Lemma main_footer_call_fails_witness :
  structure_obtained env_footer_down fresh demo_prompt two_pages /\
  fst (main env_footer_down fresh) = Raises RequestException /\
  writes (snd (main env_footer_down fresh)) = [].
Proof.
  assert (S : structure_obtained env_footer_down fresh demo_prompt two_pages).
  { repeat split. exists two_pages_text. split; reflexivity. }
  split; [exact S|].
  destruct (main_footer_call_fails env_footer_down fresh demo_prompt two_pages
              (PyStr "<h1>H</h1>") RequestException S eq_refl eq_refl)
    as (H1 & _ & H3).
  split; [exact H1 | exact H3].
Defined.

(** X14.  When the header call returns something that is not text, the run
    still performs the footer call and then raises [TypeError] at the first
    write: three requests sent, no file written. *)
Theorem main_header_not_text (E : Env) (w : World) (prompt : string)
    (structure header footer : pyval) :
  structure_obtained E w prompt structure ->
  reply_outcome E (net_log w ++ [structure_request E prompt])
    (header_request E prompt) = Returns header ->
  is_text header = false ->
  reply_outcome E (net_log w ++ [structure_request E prompt; header_request E prompt])
    (footer_request E prompt) = Returns footer ->
  fst (main E w) = Raises TypeError /\
  net_log (snd (main E w)) =
    (net_log w ++ [structure_request E prompt; header_request E prompt;
                   footer_request E prompt])%list /\
  writes (snd (main E w)) = writes w.
Proof.
  intros S Hh T Hf. rewrite (main_to_components _ _ _ _ S).
  unfold component_stage, generate_header, generate_footer.
  rewrite bind_print.
  erewrite bind_call_ai by (cbn [net_log printed sent]; exact Hh).
  erewrite bind_call_ai
    by (cbn [net_log printed sent]; rewrite <- app_assoc; exact Hf).
  rewrite (bind_write_not_text _ _ _ _ _ T).
  cbn [fst snd net_log writes sent printed].
  rewrite <- !app_assoc. repeat split.
Qed.

Lemma main_header_not_text_witness :
  structure_obtained env_null_header fresh demo_prompt two_pages /\
  is_text PyNone = false /\
  fst (main env_null_header fresh) = Raises TypeError /\
  writes (snd (main env_null_header fresh)) = [].
Proof.
  assert (S : structure_obtained env_null_header fresh demo_prompt two_pages).
  { repeat split. exists two_pages_text. split; reflexivity. }
  split; [exact S|]. split; [reflexivity|].
  destruct (main_header_not_text env_null_header fresh demo_prompt two_pages
              PyNone (PyStr "<p>F</p>") S eq_refl eq_refl eq_refl)
    as (H1 & _ & H3).
  split; [exact H1 | exact H3].
Defined.

(** X15.  When the CSS call fails, the run fails with the same error and
    leaves a partial output: [header.html] and [footer.html] are written,
    [main.css] and the pages are not. *)
Theorem main_css_call_fails (E : Env) (w : World) (prompt : string)
    (structure : pyval) (header footer : string) (e : exn) :
  structure_obtained E w prompt structure ->
  reply_outcome E (net_log w ++ [structure_request E prompt])
    (header_request E prompt) = Returns (PyStr header) ->
  reply_outcome E (net_log w ++ [structure_request E prompt; header_request E prompt])
    (footer_request E prompt) = Returns (PyStr footer) ->
  write_fails E (writes w) (path_div E OUTPUT_DIR "header.html") header = false ->
  write_fails E (writes w ++ [(path_div E OUTPUT_DIR "header.html", header)])
    (path_div E OUTPUT_DIR "footer.html") footer = false ->
  reply_outcome E
    (net_log w ++ [structure_request E prompt; header_request E prompt;
                   footer_request E prompt])
    (css_request E prompt) = Raises e ->
  fst (main E w) = Raises e /\
  net_log (snd (main E w)) = (net_log w ++ setup_requests E prompt)%list /\
  writes (snd (main E w)) =
    (writes w ++ [(path_div E OUTPUT_DIR "header.html", header);
                  (path_div E OUTPUT_DIR "footer.html", footer)])%list.
Proof.
  intros S Hh Hf Wh Wf Hc. rewrite (main_to_components _ _ _ _ S).
  unfold component_stage, generate_header, generate_footer, generate_css.
  rewrite bind_print.
  erewrite bind_call_ai by (cbn [net_log printed sent]; exact Hh).
  erewrite bind_call_ai
    by (cbn [net_log printed sent]; rewrite <- app_assoc; exact Hf).
  erewrite bind_write_text by (cbn [writes printed sent]; exact Wh).
  erewrite bind_write_text by (cbn [writes printed sent written]; exact Wf).
  rewrite bind_print.
  erewrite bind_call_ai_raises
    by (cbn [net_log printed sent written]; rewrite <- !app_assoc; exact Hc).
  cbn [fst snd net_log writes sent printed written]. unfold setup_requests.
  rewrite <- !app_assoc. repeat split.
Qed.

Lemma main_css_call_fails_witness :
  structure_obtained env_css_down fresh demo_prompt two_pages /\
  fst (main env_css_down fresh) = Raises RequestException /\
  writes (snd (main env_css_down fresh)) =
    [("output/header.html", "<h1>H</h1>"); ("output/footer.html", "<p>F</p>")].
Proof.
  assert (S : structure_obtained env_css_down fresh demo_prompt two_pages).
  { repeat split. exists two_pages_text. split; reflexivity. }
  split; [exact S|].
  destruct (main_css_call_fails env_css_down fresh demo_prompt two_pages
              "<h1>H</h1>" "<p>F</p>" RequestException S
              eq_refl eq_refl eq_refl eq_refl eq_refl) as (H1 & _ & H3).
  split; [exact H1 | exact H3].
Defined.

(** X16.  When the structure decodes to a JSON array, a bare list of page
    names for instance, the run generates and writes the header, the footer
    and the stylesheet and then raises [TypeError] at [structure["pages"]]:
    no page is generated. *)
Theorem main_structure_is_array (E : Env) (w : World) (prompt : string)
    (items : list pyval) (header footer css : string) :
  setup_succeeds E w prompt (PyList items) header footer css ->
  fst (main E w) = Raises TypeError /\
  net_log (snd (main E w)) = (net_log w ++ setup_requests E prompt)%list /\
  writes (snd (main E w)) = (writes w ++ shared_files E header footer css)%list.
Proof.
  intros S. rewrite (main_setup _ _ _ _ _ _ _ S).
  unfold page_stage. cbn [py_getitem]. rewrite bind_lift_raises.
  repeat split.
Qed.

Lemma main_structure_is_array_witness :
  setup_succeeds env_array fresh demo_prompt (PyList [PyStr "index.html"])
    "<h1>H</h1>" "<p>F</p>" "body {}" /\
  fst (main env_array fresh) = Raises TypeError /\
  List.length (net_log (snd (main env_array fresh))) = 4.
Proof.
  assert (S : setup_succeeds env_array fresh demo_prompt (PyList [PyStr "index.html"])
                "<h1>H</h1>" "<p>F</p>" "body {}").
  { repeat split; try reflexivity. exists array_text. split; reflexivity. }
  split; [exact S|].
  destruct (main_structure_is_array env_array fresh demo_prompt _ _ _ _ S)
    as (H1 & H2 & _).
  split; [exact H1|]. rewrite H2. reflexivity.
Defined.

(** ** The page loop, at its edges *)

(** A loop stops at the first turn that raises: the elements after it are
    not reached. *)
Lemma for_each_stops {A : Type} (body : A -> M unit) (before : list A) (x : A)
    (after : list A) (e : exn) :
  forall w w1 w2,
  for_each before body w = (Returns tt, w1) ->
  body x w1 = (Raises e, w2) ->
  for_each (before ++ x :: after) body w = (Raises e, w2).
Proof.
  induction before as [|y rest IH]; intros w w1 w2 Hb Hx.
  - cbn in Hb. injection Hb as <-. cbn [app for_each].
    now apply bind_raises.
  - cbn [for_each] in Hb. apply bind_inv in Hb.
    destruct Hb as ([] & w0 & Hy & Hrest).
    cbn [app for_each]. rewrite (bind_returns _ _ _ _ _ Hy).
    now apply (IH _ _ _ Hrest).
Qed.

Lemma page_loop_stdout (E : Env) (prompt : string) (header footer : pyval)
    (names : list string) :
  forall w w',
  for_each (map PyStr names) (page_step E prompt header footer) w = (Returns tt, w') ->
  stdout w' = (stdout w ++ map (fun n => ("   ✔ " ++ n)%string) names)%list.
Proof.
  induction names as [|n rest IH]; intros w w' H.
  - cbn in H. injection H as <-. now rewrite app_nil_r.
  - cbn [map for_each] in H. apply bind_inv in H.
    destruct H as ([] & w1 & Hstep & Hrest).
    apply page_step_inv in Hstep. destruct Hstep as (b & _ & ->).
    rewrite (IH _ _ Hrest). cbn [stdout printed written sent map].
    rewrite <- app_assoc. reflexivity.
Qed.

(** X17.  When [pages] holds a text instead of a list, the loop runs over
    its characters: a completed run has requested and written one page for
    each character, named by that character. *)
Theorem main_pages_text (E : Env) (w w' : World) (prompt : string)
    (structure : pyval) (pages : string) (header footer css : string) :
  setup_succeeds E w prompt structure header footer css ->
  py_getitem structure (KStr "pages") = Returns (PyStr pages) ->
  main E w = (Returns tt, w') ->
  net_log w' =
    (net_log w ++ setup_requests E prompt ++
     map (fun c => page_request E prompt (PyStr c)) (py_chars pages))%list /\
  map fst (writes w') =
    (map fst (writes w) ++ map fst (shared_files E header footer css) ++
     map (path_div E OUTPUT_DIR) (py_chars pages))%list.
Proof.
  intros S Hpages Hrun.
  rewrite (main_setup _ _ _ _ _ _ _ S) in Hrun.
  unfold page_stage in Hrun.
  rewrite Hpages, bind_lift_returns in Hrun. cbn [py_iter] in Hrun.
  rewrite bind_lift_returns in Hrun.
  apply bind_inv in Hrun. destruct Hrun as ([] & w2 & Hloop & Hend).
  unfold print in Hend. injection Hend as <-.
  apply page_loop_run in Hloop. destruct Hloop as (Hlog & Hfiles & _).
  cbn [net_log writes stdout after_setup printed] in *.
  split.
  - rewrite Hlog, <- app_assoc. reflexivity.
  - rewrite Hfiles, map_app, <- app_assoc. reflexivity.
Qed.

Lemma main_pages_text_witness :
  setup_succeeds env_text_pages fresh demo_prompt (PyDict [("pages", PyStr "ab")])
    "<h1>H</h1>" "<p>F</p>" "body {}" /\
  fst (main env_text_pages fresh) = Returns tt /\
  map fst (writes (snd (main env_text_pages fresh))) =
    ["output/header.html"; "output/footer.html"; "output/main.css";
     "output/a"; "output/b"].
Proof.
  assert (S : setup_succeeds env_text_pages fresh demo_prompt
                (PyDict [("pages", PyStr "ab")]) "<h1>H</h1>" "<p>F</p>" "body {}").
  { repeat split; try reflexivity. exists text_pages_text. split; reflexivity. }
  split; [exact S|].
  split; [vm_compute; reflexivity|].
  assert (R : main env_text_pages fresh = (Returns tt, snd (main env_text_pages fresh)))
    by (vm_compute; reflexivity).
  exact (proj2 (main_pages_text env_text_pages fresh _ demo_prompt _ "ab" _ _ _
                  S eq_refl R)).
Defined.

(** X18.  When [pages] holds a value that cannot be iterated (null, a
    number, a boolean), the run raises [TypeError] after the header, the
    footer and the stylesheet are written, and generates no page. *)
Theorem main_pages_not_iterable (E : Env) (w : World) (prompt : string)
    (structure pages : pyval) (header footer css : string) (e : exn) :
  setup_succeeds E w prompt structure header footer css ->
  py_getitem structure (KStr "pages") = Returns pages ->
  py_iter pages = Raises e ->
  e = TypeError /\
  fst (main E w) = Raises TypeError /\
  net_log (snd (main E w)) = (net_log w ++ setup_requests E prompt)%list /\
  writes (snd (main E w)) = (writes w ++ shared_files E header footer css)%list.
Proof.
  intros S Hpages Hiter.
  assert (He : e = TypeError)
    by (destruct pages; cbn in Hiter; congruence).
  subst e. split; [reflexivity|].
  rewrite (main_setup _ _ _ _ _ _ _ S).
  unfold page_stage. rewrite Hpages, bind_lift_returns, Hiter, bind_lift_raises.
  repeat split.
Qed.

Lemma main_pages_not_iterable_witness :
  setup_succeeds env_null_pages fresh demo_prompt (PyDict [("pages", PyNone)])
    "<h1>H</h1>" "<p>F</p>" "body {}" /\
  py_iter PyNone = Raises TypeError /\
  fst (main env_null_pages fresh) = Raises TypeError.
Proof.
  assert (S : setup_succeeds env_null_pages fresh demo_prompt
                (PyDict [("pages", PyNone)]) "<h1>H</h1>" "<p>F</p>" "body {}").
  { repeat split; try reflexivity. exists null_pages_text. split; reflexivity. }
  split; [exact S|]. split; [reflexivity|].
  exact (proj1 (proj2 (main_pages_not_iterable env_null_pages fresh demo_prompt
                         _ PyNone _ _ _ TypeError S eq_refl eq_refl))).
Defined.

(** X19.  A page name that is not text costs a request and yields no file:
    the page is generated first, and the turn raises [TypeError] only when
    the name is joined to the output directory. *)
Theorem page_step_name_not_text (E : Env) (prompt : string)
    (header footer page body : pyval) (w : World) :
  is_text page = false ->
  reply_outcome E (net_log w) (page_request E prompt page) = Returns body ->
  page_step E prompt header footer page w =
    (Raises TypeError, sent (page_request E prompt page) w).
Proof.
  intros T Hb. unfold page_step, generate_page.
  erewrite bind_call_ai by exact Hb.
  unfold assemble_page_call, ret, bind, lift.
  destruct page; try reflexivity. discriminate T.
Qed.

Lemma page_step_name_not_text_witness :
  is_text PyNone = false /\
  page_step env_one_reply demo_prompt (PyStr "<h1>H</h1>") (PyStr "<p>F</p>")
    PyNone fresh =
    (Raises TypeError, sent (page_request env_one_reply demo_prompt PyNone) fresh).
Proof.
  split; [reflexivity|].
  exact (page_step_name_not_text env_one_reply demo_prompt _ _ PyNone
           (PyStr "<h1>Index</h1>") fresh eq_refl eq_refl).
Defined.

(** X20.  When the generation call of a page fails, the stages before the
    loop and the turns of the pages before it having completed, the run
    fails with the error of that call: the pages before it have been
    requested and written, the failing page has been requested and no write
    has been made for it, and the pages after it have not been requested. *)
Theorem main_page_call_fails (E : Env) (w w1 : World) (prompt : string)
    (structure : pyval) (before : list string) (name : string)
    (after : list string) (header footer css : string) (e : exn) :
  setup_succeeds E w prompt structure header footer css ->
  py_getitem structure (KStr "pages") =
    Returns (PyList (map PyStr (before ++ name :: after))) ->
  for_each (map PyStr before) (page_step E prompt (PyStr header) (PyStr footer))
    (after_setup E prompt header footer css w) = (Returns tt, w1) ->
  reply_outcome E
    (net_log w ++ setup_requests E prompt ++
     map (fun n => page_request E prompt (PyStr n)) before)
    (page_request E prompt (PyStr name)) = Raises e ->
  fst (main E w) = Raises e /\
  net_log (snd (main E w)) =
    (net_log w ++ setup_requests E prompt ++
     map (fun n => page_request E prompt (PyStr n)) (before ++ [name]))%list /\
  map fst (writes (snd (main E w))) =
    (map fst (writes w) ++ map fst (shared_files E header footer css) ++
     map (path_div E OUTPUT_DIR) before)%list.
Proof.
  intros S Hpages Hbefore Hcall.
  pose proof (page_loop_run _ _ _ _ _ _ _ Hbefore) as (Hlog & Hfiles & _).
  cbn [net_log writes after_setup] in Hlog, Hfiles.
  assert (Hstep : page_step E prompt (PyStr header) (PyStr footer) (PyStr name) w1 =
                  (Raises e, sent (page_request E prompt (PyStr name)) w1)).
  { unfold page_step, generate_page. apply bind_call_ai_raises.
    fold (page_request E prompt (PyStr name)).
    rewrite Hlog, <- app_assoc. exact Hcall. }
  assert (R : main E w = (Raises e, sent (page_request E prompt (PyStr name)) w1)).
  { rewrite (main_setup _ _ _ _ _ _ _ S). unfold page_stage.
    rewrite Hpages, bind_lift_returns. cbn [py_iter]. rewrite bind_lift_returns.
    apply bind_raises. rewrite map_app. cbn [map].
    exact (for_each_stops _ _ _ _ _ _ _ _ Hbefore Hstep). }
  rewrite R. cbn [fst snd net_log writes sent].
  split; [reflexivity|]. split.
  - rewrite Hlog, map_app, <- !app_assoc. reflexivity.
  - rewrite Hfiles, map_app, <- app_assoc. reflexivity.
Qed.

Lemma main_page_call_fails_witness :
  setup_succeeds env_page_down fresh demo_prompt two_pages
    "<h1>H</h1>" "<p>F</p>" "body {}" /\
  fst (main env_page_down fresh) = Raises RequestException /\
  map fst (writes (snd (main env_page_down fresh))) =
    ["output/header.html"; "output/footer.html"; "output/main.css";
     "output/index.html"] /\
  List.length (net_log (snd (main env_page_down fresh))) = 6.
Proof.
  assert (S : setup_succeeds env_page_down fresh demo_prompt two_pages
                "<h1>H</h1>" "<p>F</p>" "body {}").
  { repeat split; try reflexivity. exists two_pages_text. split; reflexivity. }
  split; [exact S|].
  destruct (main_page_call_fails env_page_down fresh
              (snd (for_each (map PyStr ["index.html"])
                      (page_step env_page_down demo_prompt
                         (PyStr "<h1>H</h1>") (PyStr "<p>F</p>"))
                      (after_setup env_page_down demo_prompt
                         "<h1>H</h1>" "<p>F</p>" "body {}" fresh)))
              demo_prompt two_pages ["index.html"] "pricing.html" []
              "<h1>H</h1>" "<p>F</p>" "body {}" RequestException
              S eq_refl eq_refl eq_refl) as (H1 & H2 & H3).
  split; [exact H1|]. split; [exact H3|]. rewrite H2. reflexivity.
Defined.

(** X21.  A completed run has printed the four stage lines, then one line
    for each page of the list, in the list's order, then the closing line. *)
Theorem main_progress_output (E : Env) (w w' : World) (prompt : string)
    (structure : pyval) (names : list string) (header footer css : string) :
  setup_succeeds E w prompt structure header footer css ->
  py_getitem structure (KStr "pages") = Returns (PyList (map PyStr names)) ->
  main E w = (Returns tt, w') ->
  stdout w' =
    (stdout w ++
     ["🔹 Generating site structure..."; "🔹 Generating header & footer...";
      "🔹 Generating CSS..."; "🔹 Generating pages..."] ++
     map (fun n => ("   ✔ " ++ n)%string) names ++
     ["✅ Site generation complete."])%list.
Proof.
  intros S Hpages Hrun.
  rewrite (main_setup _ _ _ _ _ _ _ S) in Hrun.
  unfold page_stage in Hrun.
  rewrite Hpages, bind_lift_returns in Hrun. cbn [py_iter] in Hrun.
  rewrite bind_lift_returns in Hrun.
  apply bind_inv in Hrun. destruct Hrun as ([] & w2 & Hloop & Hend).
  unfold print in Hend. injection Hend as <-.
  apply page_loop_stdout in Hloop.
  cbn [stdout after_setup printed] in *.
  rewrite Hloop, <- !app_assoc. reflexivity.
Qed.

Lemma main_progress_output_witness :
  setup_succeeds env_scenario fresh demo_prompt two_pages
    "<h1>H</h1>" "<p>F</p>" "body {}" /\
  stdout (snd (main env_scenario fresh)) =
    ["🔹 Generating site structure..."; "🔹 Generating header & footer...";
     "🔹 Generating CSS..."; "🔹 Generating pages...";
     "   ✔ index.html"; "   ✔ pricing.html"; "✅ Site generation complete."].
Proof.
  assert (S : setup_succeeds env_scenario fresh demo_prompt two_pages
                "<h1>H</h1>" "<p>F</p>" "body {}").
  { repeat split; try reflexivity. exists two_pages_text. split; reflexivity. }
  split; [exact S|].
  assert (R : main env_scenario fresh = (Returns tt, snd (main env_scenario fresh)))
    by (vm_compute; reflexivity).
  exact (main_progress_output env_scenario fresh _ demo_prompt two_pages
           ["index.html"; "pricing.html"] _ _ _ S eq_refl R).
Defined.

(** X22.  At the end of a completed run the three shared files hold the
    header, the footer and the stylesheet as generated, provided the three
    are distinct files and no page of the list designates one of them. *)
Theorem main_shared_files_kept (E : Env) (w w' : World) (prompt : string)
    (structure : pyval) (names : list string) (header footer css : string) :
  setup_succeeds E w prompt structure header footer css ->
  py_getitem structure (KStr "pages") = Returns (PyList (map PyStr names)) ->
  main E w = (Returns tt, w') ->
  path_div E OUTPUT_DIR "header.html" <> path_div E OUTPUT_DIR "footer.html" ->
  path_div E OUTPUT_DIR "header.html" <> path_div E OUTPUT_DIR "main.css" ->
  path_div E OUTPUT_DIR "footer.html" <> path_div E OUTPUT_DIR "main.css" ->
  (forall n, In n names ->
     path_div E OUTPUT_DIR n <> path_div E OUTPUT_DIR "header.html" /\
     path_div E OUTPUT_DIR n <> path_div E OUTPUT_DIR "footer.html" /\
     path_div E OUTPUT_DIR n <> path_div E OUTPUT_DIR "main.css") ->
  file_content (writes w') (path_div E OUTPUT_DIR "header.html") = Some header /\
  file_content (writes w') (path_div E OUTPUT_DIR "footer.html") = Some footer /\
  file_content (writes w') (path_div E OUTPUT_DIR "main.css") = Some css.
Proof.
  intros S Hpages Hrun Hhf Hhc Hfc Hnames.
  rewrite (main_setup _ _ _ _ _ _ _ S) in Hrun.
  unfold page_stage in Hrun.
  rewrite Hpages, bind_lift_returns in Hrun. cbn [py_iter] in Hrun.
  rewrite bind_lift_returns in Hrun.
  apply bind_inv in Hrun. destruct Hrun as ([] & w2 & Hloop & Hend).
  unfold print in Hend. injection Hend as <-.
  apply page_loop_run in Hloop. destruct Hloop as (_ & _ & Hkeep & _).
  cbn [writes after_setup printed] in *.
  assert (Ehf := proj2 (String.eqb_neq _ _) Hhf).
  assert (Ehc := proj2 (String.eqb_neq _ _) Hhc).
  assert (Efc := proj2 (String.eqb_neq _ _) Hfc).
  assert (Efh : (path_div E OUTPUT_DIR "footer.html" =?
                 path_div E OUTPUT_DIR "header.html")%string = false)
    by (rewrite String.eqb_sym; exact Ehf).
  assert (Ech : (path_div E OUTPUT_DIR "main.css" =?
                 path_div E OUTPUT_DIR "header.html")%string = false)
    by (rewrite String.eqb_sym; exact Ehc).
  assert (Ecf : (path_div E OUTPUT_DIR "main.css" =?
                 path_div E OUTPUT_DIR "footer.html")%string = false)
    by (rewrite String.eqb_sym; exact Efc).
  repeat split.
  - rewrite Hkeep by (intros n Hn; apply (Hnames n Hn)).
    rewrite file_content_app. unfold shared_files. cbn [file_content].
    now rewrite Ech, Efh, String.eqb_refl.
  - rewrite Hkeep by (intros n Hn; apply (Hnames n Hn)).
    rewrite file_content_app. unfold shared_files. cbn [file_content].
    now rewrite Ecf, String.eqb_refl.
  - rewrite Hkeep by (intros n Hn; apply (Hnames n Hn)).
    rewrite file_content_app. unfold shared_files. cbn [file_content].
    now rewrite String.eqb_refl.
Qed.

Lemma main_shared_files_kept_witness :
  setup_succeeds env_scenario fresh demo_prompt two_pages
    "<h1>H</h1>" "<p>F</p>" "body {}" /\
  file_content (writes (snd (main env_scenario fresh))) "output/header.html" =
    Some "<h1>H</h1>" /\
  file_content (writes (snd (main env_scenario fresh))) "output/footer.html" =
    Some "<p>F</p>" /\
  file_content (writes (snd (main env_scenario fresh))) "output/main.css" =
    Some "body {}".
Proof.
  assert (S : setup_succeeds env_scenario fresh demo_prompt two_pages
                "<h1>H</h1>" "<p>F</p>" "body {}").
  { repeat split; try reflexivity. exists two_pages_text. split; reflexivity. }
  split; [exact S|].
  assert (R : main env_scenario fresh = (Returns tt, snd (main env_scenario fresh)))
    by (vm_compute; reflexivity).
  apply (main_shared_files_kept env_scenario fresh _ demo_prompt two_pages
           ["index.html"; "pricing.html"] _ _ _ S eq_refl R);
    try discriminate.
  intros n [<-|[<-|[]]]; repeat split; discriminate.
Defined.

(** ** What holds of every run *)

Lemma ensures_bind {A B : Type} (R S : World -> World -> Prop)
    (m : M A) (k : A -> M B) :
  (forall a b c, R a b -> R b c -> R a c) ->
  (forall a b c, R a b -> S b c -> S a c) ->
  ensures m R R -> (forall a, ensures (k a) R S) -> ensures (bind m k) R S.
Proof.
  intros RR RS Hm Hk w. unfold bind.
  specialize (Hm w). destruct (m w) as [[a|e] w1]; [|exact Hm].
  specialize (Hk a w1). destruct (k a w1) as [[b|e] w2].
  - exact (RS _ _ _ Hm Hk).
  - exact (RR _ _ _ Hm Hk).
Qed.

Lemma ensures_still {A : Type} (R S : World -> World -> Prop) (o : outcome A) :
  (forall w, R w w) -> (forall w, S w w) -> ensures (lift o) R S.
Proof. intros HR HS w. unfold lift. destruct o; [apply HS | apply HR]. Qed.

Lemma ensures_lift_returns {A B : Type} (R S : World -> World -> Prop)
    (a : A) (k : A -> M B) :
  ensures (k a) R S -> ensures (bind (lift (Returns a)) k) R S.
Proof. intros H w. rewrite bind_lift_returns. apply H. Qed.

Lemma ensures_lift_raises {A B : Type} (R S : World -> World -> Prop)
    (e : exn) (k : A -> M B) :
  (forall w, R w w) -> ensures (bind (lift (Raises e)) k) R S.
Proof. intros HR w. rewrite bind_lift_raises. apply HR. Qed.

Lemma ensures_for_each {A : Type} (R : World -> World -> Prop)
    (body : A -> M unit) (xs : list A) :
  (forall w, R w w) ->
  (forall a b c, R a b -> R b c -> R a c) ->
  (forall x, ensures (body x) R R) -> ensures (for_each xs body) R R.
Proof.
  intros HR RR Hb. induction xs as [|x rest IH].
  - intros w. apply HR.
  - cbn [for_each]. apply ensures_bind; auto.
Qed.

Lemma grows_refl (E : Env) (w : World) : grows_by_run E w w.
Proof.
  exists [], [], []. rewrite !app_nil_r. repeat split; constructor.
Qed.

Lemma grows_trans (E : Env) (a b c : World) :
  grows_by_run E a b -> grows_by_run E b c -> grows_by_run E a c.
Proof.
  intros (r1 & f1 & l1 & N1 & W1 & O1 & Q1 & P1) (r2 & f2 & l2 & N2 & W2 & O2 & Q2 & P2).
  exists (r1 ++ r2)%list, (f1 ++ f2)%list, (l1 ++ l2)%list.
  rewrite N2, N1, W2, W1, O2, O1, !app_assoc.
  repeat split; apply Forall_app; now split.
Qed.

Lemma grows_printed (E : Env) (line : string) (w : World) :
  grows_by_run E w (printed line w).
Proof.
  exists [], [], [line]. cbn [net_log writes stdout printed].
  rewrite !app_nil_r. repeat split; constructor.
Qed.

Lemma grows_sent (E : Env) (system_prompt user_prompt : string) (w : World) :
  grows_by_run E w (sent (chat_request E system_prompt user_prompt) w).
Proof.
  exists [chat_request E system_prompt user_prompt], [], [].
  cbn [net_log writes stdout sent]. rewrite !app_nil_r.
  repeat split; constructor; [|constructor]. now exists system_prompt, user_prompt.
Qed.

Lemma grows_written (E : Env) (name text : string) (w : World) :
  grows_by_run E w (written (path_div E OUTPUT_DIR name) text w).
Proof.
  exists [], [(path_div E OUTPUT_DIR name, text)], [].
  cbn [net_log writes stdout written]. rewrite !app_nil_r.
  repeat split; constructor; [|constructor]. now exists name.
Qed.

Lemma call_ai_grows (E : Env) (system_prompt user_prompt : string) :
  ensures (call_ai E system_prompt user_prompt) (grows_by_run E) (grows_by_run E).
Proof.
  intros w. rewrite call_ai_run.
  destruct (reply_outcome E _ _); apply grows_sent.
Qed.

Lemma write_text_grows (E : Env) (name : string) (data : pyval) :
  ensures (write_text E (path_div E OUTPUT_DIR name) data)
    (grows_by_run E) (grows_by_run E).
Proof.
  intros w. unfold write_text.
  destruct data; try apply grows_refl.
  destruct (write_fails E _ _ _); [apply grows_refl | apply grows_written].
Qed.

Lemma print_grows (E : Env) (line : string) :
  ensures (print line) (grows_by_run E) (grows_by_run E).
Proof. intros w. apply grows_printed. Qed.

Ltac grow_step E :=
  first
    [ apply call_ai_grows
    | apply write_text_grows
    | apply print_grows
    | apply ensures_still; exact (grows_refl E)
    | apply (ensures_bind (grows_by_run E) (grows_by_run E));
      [exact (grows_trans E) | exact (grows_trans E) | | intros ? ] ].

Lemma page_step_grows (E : Env) (prompt : string) (header footer page : pyval) :
  ensures (page_step E prompt header footer page) (grows_by_run E) (grows_by_run E).
Proof.
  unfold page_step, generate_page, assemble_page_call.
  grow_step E; [grow_step E|].
  grow_step E; [intros w; apply grows_refl|].
  destruct page; cbn [py_truediv];
    try (apply ensures_lift_raises; exact (grows_refl E)).
  apply ensures_lift_returns. grow_step E; grow_step E.
Qed.

(** X23.  In every environment and whatever its outcome, a run only adds to
    what has been sent, written and printed; every request it sends is a
    chat request as [call_ai] builds it (the fixed endpoint, model,
    temperature and timeout, the credential of the environment), and every
    file it writes is one that the output directory joined with some name
    designates. *)
Theorem main_grows (E : Env) (w : World) :
  grows_by_run E w (snd (main E w)).
Proof.
  assert (H : ensures (main E) (grows_by_run E) (grows_by_run E)).
  { unfold main. destruct (negb (truthy (OPENROUTER_API_KEY E))).
    - intros w0. apply grows_refl.
    - unfold generate_structure, generate_header, generate_footer, generate_css,
        py_json_loads.
      repeat grow_step E.
      apply ensures_for_each;
        [exact (grows_refl E) | exact (grows_trans E) | apply page_step_grows]. }
  specialize (H w). destruct (main E w) as [[[]|e] w']; exact H.
Qed.

Lemma quiet_same_output (w w' : World) : stdout w' = stdout w -> quiet w w'.
Proof. intros H. exists []. rewrite app_nil_r. split; [exact H | intros []]. Qed.

Lemma quiet_refl (w : World) : quiet w w.
Proof. now apply quiet_same_output. Qed.

Lemma quiet_trans (a b c : World) : quiet a b -> quiet b c -> quiet a c.
Proof.
  intros (l1 & O1 & N1) (l2 & O2 & N2). exists (l1 ++ l2)%list.
  rewrite O2, O1, app_assoc. split; [reflexivity|].
  intros H. apply in_app_or in H. tauto.
Qed.

Lemma quiet_announced (a b c : World) : quiet a b -> announced b c -> announced a c.
Proof.
  intros (l1 & O1 & N1) (l2 & O2 & N2). exists (l1 ++ l2)%list.
  rewrite O2, O1, !app_assoc. split; [reflexivity|].
  intros H. apply in_app_or in H. tauto.
Qed.

Lemma call_ai_quiet (E : Env) (system_prompt user_prompt : string) :
  ensures (call_ai E system_prompt user_prompt) quiet quiet.
Proof.
  intros w. rewrite call_ai_run.
  destruct (reply_outcome E _ _); now apply quiet_same_output.
Qed.

Lemma write_text_quiet (E : Env) (file : string) (data : pyval) :
  ensures (write_text E file data) quiet quiet.
Proof.
  intros w. unfold write_text.
  destruct data; try apply quiet_refl.
  destruct (write_fails E _ _ _); now apply quiet_same_output.
Qed.

Lemma print_quiet (line : string) :
  line <> completion_line -> ensures (print line) quiet quiet.
Proof.
  intros N w. exists [line]. split; [reflexivity|].
  intros [H|[]]. now apply N.
Qed.

Lemma print_announces : ensures (print completion_line) quiet announced.
Proof. intros w. exists []. split; [reflexivity | intros []]. Qed.

Ltac quiet_step E :=
  first
    [ apply call_ai_quiet
    | apply write_text_quiet
    | apply print_quiet; discriminate
    | apply ensures_still; exact quiet_refl
    | apply (ensures_bind quiet quiet);
      [exact quiet_trans | exact quiet_trans | | intros ? ] ].

Lemma page_step_quiet (E : Env) (prompt : string) (header footer page : pyval) :
  ensures (page_step E prompt header footer page) quiet quiet.
Proof.
  unfold page_step, generate_page, assemble_page_call.
  quiet_step E; [quiet_step E|].
  quiet_step E; [intros w; apply quiet_refl|].
  quiet_step E; [quiet_step E|].
  quiet_step E; [quiet_step E|].
  apply print_quiet. cbn. discriminate.
Qed.

Lemma generate_structure_quiet (E : Env) (prompt : string) :
  ensures (generate_structure E prompt) quiet quiet.
Proof. unfold generate_structure. repeat quiet_step E. Qed.

Ltac announce_step E :=
  apply (ensures_bind quiet announced);
  [exact quiet_trans | exact quiet_announced | | intros ? ].

(** X24.  The closing line tells a completed run from an aborted one: a run
    that returns has printed it, once and last; a run that raises has not
    printed it. *)
Theorem main_completion_line (E : Env) (w : World) :
  match fst (main E w) with
  | Returns _ => announced w (snd (main E w))
  | Raises _ => quiet w (snd (main E w))
  end.
Proof.
  assert (H : ensures (main E) quiet announced).
  { unfold main. destruct (negb (truthy (OPENROUTER_API_KEY E))).
    - intros w0. apply quiet_refl.
    - unfold generate_header, generate_footer, generate_css.
      announce_step E; [quiet_step E|].
      announce_step E; [quiet_step E|].
      announce_step E; [apply generate_structure_quiet|].
      announce_step E; [quiet_step E|].
      announce_step E; [quiet_step E|].
      announce_step E; [quiet_step E|].
      announce_step E; [quiet_step E|].
      announce_step E; [quiet_step E|].
      announce_step E; [quiet_step E|].
      announce_step E; [quiet_step E|].
      announce_step E; [quiet_step E|].
      announce_step E; [quiet_step E|].
      announce_step E; [quiet_step E|].
      announce_step E; [quiet_step E|].
      announce_step E;
        [apply ensures_for_each;
           [exact quiet_refl | exact quiet_trans | apply page_step_quiet]|].
      apply print_announces. }
  specialize (H w). destruct (main E w) as [[[]|e] w']; exact H.
Qed.

(** X25.  When [pages] holds an object, the loop runs over its keys, in
    their order: a completed run has requested and written one page for each
    key, named by the key; the values under the keys are not used. *)
Theorem main_pages_object (E : Env) (w w' : World) (prompt : string)
    (structure : pyval) (entries : list (string * pyval))
    (header footer css : string) :
  setup_succeeds E w prompt structure header footer css ->
  py_getitem structure (KStr "pages") = Returns (PyDict entries) ->
  main E w = (Returns tt, w') ->
  net_log w' =
    (net_log w ++ setup_requests E prompt ++
     map (fun k => page_request E prompt (PyStr k)) (map fst entries))%list /\
  map fst (writes w') =
    (map fst (writes w) ++ map fst (shared_files E header footer css) ++
     map (path_div E OUTPUT_DIR) (map fst entries))%list.
Proof.
  intros S Hpages Hrun.
  rewrite (main_setup _ _ _ _ _ _ _ S) in Hrun.
  unfold page_stage in Hrun.
  rewrite Hpages, bind_lift_returns in Hrun. cbn [py_iter] in Hrun.
  rewrite bind_lift_returns in Hrun.
  replace (map (fun kv : string * pyval => PyStr (fst kv)) entries)
    with (map PyStr (map fst entries)) in Hrun by (now rewrite map_map).
  apply bind_inv in Hrun. destruct Hrun as ([] & w2 & Hloop & Hend).
  unfold print in Hend. injection Hend as <-.
  apply page_loop_run in Hloop. destruct Hloop as (Hlog & Hfiles & _).
  cbn [net_log writes stdout after_setup printed] in *.
  split.
  - rewrite Hlog, <- app_assoc. reflexivity.
  - rewrite Hfiles, map_app, <- app_assoc. reflexivity.
Qed.

Lemma main_pages_object_witness :
  setup_succeeds env_object_pages fresh demo_prompt object_pages
    "<h1>H</h1>" "<p>F</p>" "body {}" /\
  fst (main env_object_pages fresh) = Returns tt /\
  map fst (writes (snd (main env_object_pages fresh))) =
    ["output/header.html"; "output/footer.html"; "output/main.css";
     "output/index.html"; "output/about.html"].
Proof.
  assert (S : setup_succeeds env_object_pages fresh demo_prompt object_pages
                "<h1>H</h1>" "<p>F</p>" "body {}").
  { repeat split; try reflexivity. exists object_pages_text. split; reflexivity. }
  split; [exact S|].
  split; [vm_compute; reflexivity|].
  assert (R : main env_object_pages fresh =
              (Returns tt, snd (main env_object_pages fresh)))
    by (vm_compute; reflexivity).
  exact (proj2 (main_pages_object env_object_pages fresh _ demo_prompt _
                  [("index.html", PyStr "Home"); ("about.html", PyStr "About")]
                  _ _ _ S eq_refl R)).
Defined.
